(** * Sahaay chat screen: the send pipeline of [ChatInterface.tsx]

    A shallow embedding of [src/components/chat/ChatInterface.tsx] (the
    [ChatInterface] component with its [sendMessage] and
    [processImageUpload] handlers, and the helper [getFallbackSuggestion])
    and of the alternate screen [MessagingApp] with its
    [handleSendMessage], followed by the properties the specification
    states about them.

    Conventions.
    - A JavaScript string is embedded as the byte string of its UTF-8
      encoding.  The string primitives the handlers use ([toLowerCase],
      [includes], [trim]) are written on that encoding.
    - A JavaScript [number] that is only stored and passed on (a confidence)
      is a rational; a clock reading is an integer number of milliseconds.
    - A handler is a computation in a small state-and-exception monad: it
      transforms the component state and the key-value store, emits the
      calls it makes to its collaborators (toasts, console, AI service,
      callbacks) and either returns or throws. *)

From Stdlib Require Import ZArith QArith String Ascii List Bool Lia.
From stdpp Require Import base option list gmap strings pretty.

(** ** JavaScript strings on their UTF-8 encoding *)

Module JsString.

(** The line feed written [\n] in the source, and the double quote. *)
Definition nl : string := String "010"%char EmptyString.
Definition dq : string := String "034"%char EmptyString.

Definition isUpperAscii (c : ascii) : bool :=
  (65 <=? nat_of_ascii c)%nat && (nat_of_ascii c <=? 90)%nat.

Definition lowerAscii (c : ascii) : ascii :=
  if isUpperAscii c then ascii_of_nat (nat_of_ascii c + 32) else c.

(** [String.prototype.toLowerCase].  ASCII capitals are lowered.  The two
    characters outside ASCII whose lower case contains an ASCII letter are
    lowered as Unicode does: U+0130 (bytes C4 B0) becomes [i] followed by
    U+0307 (bytes CC 87), and U+212A (bytes E2 84 AA) becomes [k].  Every
    other character outside ASCII is left as it is: its lower case is again
    outside ASCII, so the result agrees with JavaScript on every [includes]
    test against an ASCII needle, which is all the handlers do with it. *)
Fixpoint toLowerCase (s : string) : string :=
  match s with
  | EmptyString => EmptyString
  | String c1 r1 =>
      match r1 with
      | String c2 r2 =>
          if Ascii.eqb c1 "196" && Ascii.eqb c2 "176" then
            String "i" (String "204" (String "135" (toLowerCase r2)))
          else
            match r2 with
            | String c3 r3 =>
                if Ascii.eqb c1 "226" && Ascii.eqb c2 "132" && Ascii.eqb c3 "170"
                then String "k" (toLowerCase r3)
                else String (lowerAscii c1) (toLowerCase r1)
            | EmptyString => String (lowerAscii c1) (toLowerCase r1)
            end
      | EmptyString => String (lowerAscii c1) EmptyString
      end
  end.

(** [s.includes(needle)]: [needle] occurs in [s] as a contiguous run. *)
Fixpoint includes (s needle : string) : bool :=
  String.prefix needle s
  || match s with
     | EmptyString => false
     | String _ rest => includes rest needle
     end.

(** White space as [trim] sees it (ECMAScript WhiteSpace and
    LineTerminator), by the length of its UTF-8 encoding. *)
Definition isSpace1 (c : ascii) : bool :=
  let n := nat_of_ascii c in
  ((9 <=? n)%nat && (n <=? 13)%nat) || (n =? 32)%nat.

(** U+00A0. *)
Definition isSpace2 (c1 c2 : ascii) : bool :=
  Ascii.eqb c1 "194" && Ascii.eqb c2 "160".

(** U+1680, U+2000 to U+200A, U+2028, U+2029, U+202F, U+205F, U+3000 and
    U+FEFF. *)
Definition isSpace3 (c1 c2 c3 : ascii) : bool :=
  let n3 := nat_of_ascii c3 in
  (Ascii.eqb c1 "225" && Ascii.eqb c2 "154" && Ascii.eqb c3 "128")
  || (Ascii.eqb c1 "226" && Ascii.eqb c2 "128"
      && (((128 <=? n3)%nat && (n3 <=? 138)%nat)
          || (n3 =? 168)%nat || (n3 =? 169)%nat || (n3 =? 175)%nat))
  || (Ascii.eqb c1 "226" && Ascii.eqb c2 "129" && Ascii.eqb c3 "159")
  || (Ascii.eqb c1 "227" && Ascii.eqb c2 "128" && Ascii.eqb c3 "128")
  || (Ascii.eqb c1 "239" && Ascii.eqb c2 "187" && Ascii.eqb c3 "191").

Fixpoint trimStart (s : string) : string :=
  match s with
  | EmptyString => EmptyString
  | String c1 r1 =>
      if isSpace1 c1 then trimStart r1
      else
        match r1 with
        | String c2 r2 =>
            if isSpace2 c1 c2 then trimStart r2
            else
              match r2 with
              | String c3 r3 =>
                  if isSpace3 c1 c2 c3 then trimStart r3 else s
              | EmptyString => s
              end
        | EmptyString => s
        end
  end.

Definition isEmpty (s : string) : bool :=
  match s with EmptyString => true | String _ _ => false end.

(** The longest suffix made of white space only is dropped. *)
Fixpoint trimEnd (s : string) : string :=
  match s with
  | EmptyString => EmptyString
  | String c rest =>
      if isEmpty (trimStart s) then EmptyString else String c (trimEnd rest)
  end.

Definition trim (s : string) : string := trimEnd (trimStart s).

(** Truthiness of a string: the empty string is the only falsy one. *)
Definition truthy (s : string) : bool := negb (isEmpty s).

(** A byte of a needle of plain lower-case ASCII: below 128 and not a
    capital letter. *)
Definition plain (c : ascii) : bool :=
  (nat_of_ascii c <? 128)%nat && negb (isUpperAscii c).

Fixpoint plainString (s : string) : bool :=
  match s with
  | EmptyString => true
  | String c rest => plain c && plainString rest
  end.

End JsString.

Import JsString.

(** ** The fallback suggestion selector *)

Definition routeSuggestion : string :=
  nl +:+ nl +:+ "🗺️ **For route planning:** Try " +:+ dq
  +:+ "I need to go from [location] to [destination]" +:+ dq
  +:+ " or check Google Maps/Ola Maps for live navigation.".

Definition billSuggestion : string :=
  nl +:+ nl
  +:+ "💰 **For bill processing:** Upload a clear photo of your bill, or try describing the bill details (amount, due date, provider).".

Definition groupSuggestion : string :=
  nl +:+ nl +:+ "👥 **For group features:** Try " +:+ dq
  +:+ "@Sahaay summary of last 3 days" +:+ dq +:+ " or " +:+ dq
  +:+ "summarize recent messages" +:+ dq +:+ " for conversation insights.".

Definition weatherSuggestion : string :=
  nl +:+ nl +:+ "🌤️ **For weather:** Check weather apps or try " +:+ dq
  +:+ "What's the weather like in [city]?" +:+ dq.

Definition translateSuggestion : string :=
  nl +:+ nl
  +:+ "🌍 **For translation:** Try Google Translate or specify the languages: "
  +:+ dq +:+ "Translate [text] from [language] to [language]" +:+ dq.

Definition defaultSuggestion : string :=
  nl +:+ nl
  +:+ "💡 **Try asking about:** Routes, bills, weather, translations, or group summaries. Be specific for better results!".

(** [getFallbackSuggestion], branch for branch. *)
Definition getFallbackSuggestion (message : string) : string :=
  let lowerMessage := toLowerCase message in
  if includes lowerMessage "route" || includes lowerMessage "traffic"
     || includes lowerMessage "direction"
  then routeSuggestion
  else if includes lowerMessage "bill" || includes lowerMessage "payment"
          || includes lowerMessage "electricity" || includes lowerMessage "water"
  then billSuggestion
  else if includes lowerMessage "summary" || includes lowerMessage "group"
          || includes lowerMessage "@sahaay"
  then groupSuggestion
  else if includes lowerMessage "weather" || includes lowerMessage "temperature"
  then weatherSuggestion
  else if includes lowerMessage "translate" || includes lowerMessage "meaning"
  then translateSuggestion
  else defaultSuggestion.

(** The six outputs of the selector, in the order of its branches. *)
Definition suggestions : list string :=
  [routeSuggestion; billSuggestion; groupSuggestion; weatherSuggestion;
   translateSuggestion; defaultSuggestion].

(** The selector as the specification words it: the keyword categories in
    their priority order, the first category one of whose keywords occurs in
    the lowercased message, and the suggestion of that category. *)
Inductive Category : Type :=
| Route | Billing | GroupSummary | Weather | Translation | Generic.

Definition keywords (c : Category) : list string :=
  match c with
  | Route => ["route"; "traffic"; "direction"]
  | Billing => ["bill"; "payment"; "electricity"; "water"]
  | GroupSummary => ["summary"; "group"; "@sahaay"]
  | Weather => ["weather"; "temperature"]
  | Translation => ["translate"; "meaning"]
  | Generic => []
  end.

Definition priority : list Category :=
  [Route; Billing; GroupSummary; Weather; Translation].

Definition matches (lowerMessage : string) (c : Category) : bool :=
  existsb (includes lowerMessage) (keywords c).

Definition firstCategory (lowerMessage : string) : Category :=
  default Generic (List.find (matches lowerMessage) priority).

Definition suggestionOf (c : Category) : string :=
  match c with
  | Route => routeSuggestion
  | Billing => billSuggestion
  | GroupSummary => groupSuggestion
  | Weather => weatherSuggestion
  | Translation => translateSuggestion
  | Generic => defaultSuggestion
  end.

(** ** Values thrown and caught *)

(** What a [catch] clause can receive: an [Error] object with its message, or
    any other value. *)
Inductive Thrown : Type :=
| ErrorObject (message : string)
| OtherValue (description : string).

Inductive Outcome (A : Type) : Type :=
| Returns (value : A)
| Throws (error : Thrown).
Arguments Returns {A} value.
Arguments Throws {A} error.

(** [utils/errorHandling]: the application error [handleKVError] builds. *)
Module ErrorHandling.
Record AppError : Type := { message : string }.
End ErrorHandling.

(** ** The handler monad *)

(** A handler runs from a world of type [W], emits events of type [E], and
    returns or throws. *)

Record Step (W E A : Type) : Type := {
  outcome : Outcome A;
  after : W;
  emitted : list E
}.
Arguments outcome {W E A} _.
Arguments after {W E A} _.
Arguments emitted {W E A} _.

Definition Eff (W E A : Type) : Type := W -> Step W E A.

Section Eff.
Context {W E : Type}.

#[export] Instance Eff_ret : MRet (Eff W E) := fun A a w =>
  {| outcome := Returns a; after := w; emitted := [] |}.

#[export] Instance Eff_bind : MBind (Eff W E) := fun A B k m w =>
  match m w with
  | {| outcome := Returns a; after := w1; emitted := es |} =>
      match k a w1 with
      | {| outcome := o; after := w2; emitted := es' |} =>
          {| outcome := o; after := w2; emitted := es ++ es' |}
      end
  | {| outcome := Throws e; after := w1; emitted := es |} =>
      {| outcome := Throws e; after := w1; emitted := es |}
  end.

Definition throw {A : Type} (e : Thrown) : Eff W E A := fun w =>
  {| outcome := Throws e; after := w; emitted := [] |}.

(** [try { body } catch (e) { handler e }]. *)
Definition tryCatch {A : Type} (body : Eff W E A)
    (handler : Thrown -> Eff W E A) : Eff W E A :=
  fun w =>
    match body w with
    | {| outcome := Returns a; after := w1; emitted := es |} =>
        {| outcome := Returns a; after := w1; emitted := es |}
    | {| outcome := Throws e; after := w1; emitted := es |} =>
        match handler e w1 with
        | {| outcome := o; after := w2; emitted := es' |} =>
            {| outcome := o; after := w2; emitted := es ++ es' |}
        end
    end.

(** [try { body } finally { cleanup }]: the cleanup runs either way; when
    it throws, its error replaces the outcome of the body. *)
Definition tryFinally {A : Type} (body : Eff W E A) (cleanup : Eff W E unit)
  : Eff W E A :=
  fun w =>
    match body w with
    | {| outcome := o; after := w1; emitted := es |} =>
        match cleanup w1 with
        | {| outcome := Returns _; after := w2; emitted := es' |} =>
            {| outcome := o; after := w2; emitted := es ++ es' |}
        | {| outcome := Throws e; after := w2; emitted := es' |} =>
            {| outcome := Throws e; after := w2; emitted := es ++ es' |}
        end
    end.

Definition emit (e : E) : Eff W E unit := fun w =>
  {| outcome := Returns tt; after := w; emitted := [e] |}.

Definition get : Eff W E W := fun w =>
  {| outcome := Returns w; after := w; emitted := [] |}.

Definition modify (f : W -> W) : Eff W E unit := fun w =>
  {| outcome := Returns tt; after := f w; emitted := [] |}.

(** A call of an asynchronous collaborator: the call is made and a promise
    is returned, here the outcome it settles with. *)
Definition call {A : Type} (e : E) (result : Outcome A) : Eff W E (Outcome A) :=
  fun w => {| outcome := Returns result; after := w; emitted := [e] |}.

(** [await promise]. *)
Definition await {A : Type} (promise : Outcome A) : Eff W E A := fun w =>
  {| outcome := promise; after := w; emitted := [] |}.

End Eff.

(** [Promise.all([p, q])]: fulfilled with both values when both promises
    are, and rejected as soon as one of the two rejects, with the reason of
    that one.  When both reject, the reason is that of the promise that
    settles first in time, which the order in the array does not decide:
    [firstSettlesFirst] tells whether [p] settles before [q]. *)
Definition promiseAll {A B : Type} (firstSettlesFirst : bool)
    (p : Outcome A) (q : Outcome B) : Outcome (A * B) :=
  match p, q with
  | Returns a, Returns b => Returns (a, b)
  | Throws e, Returns _ => Throws e
  | Returns _, Throws e => Throws e
  | Throws e1, Throws e2 => Throws (if firstSettlesFirst then e1 else e2)
  end.

(** ** The [ChatInterface] component *)

Module ChatInterface.

Inductive Sender : Type := user | ai.
Inductive MessageType : Type := text | image | location | bill.

Record Metadata : Type := {
  confidence : option Q;
  needsPermission : option string;
  actionItems : option (list string);
  disclaimer : option string
}.

Record Message : Type := {
  id : string;
  content : string;
  sender : Sender;
  timestamp : string;
  type : MessageType;
  metadata : option Metadata
}.

(** The results of the two enrichment calls of the AI service. *)
Record MoodAnalysis : Type := {
  mood : string;
  moodConfidence : Q;
  moodSuggestions : list string
}.

Record LocationContext : Type := {
  area : string;
  locationSuggestions : list string
}.

(** [new Date(s)], kept as the string it was built from. *)
Inductive JsDate : Type := NewDate (iso : string).

(** A stored message in the format of the AI service. *)
Record AIServiceMessage : Type := {
  aiId : string;
  aiContent : string;
  aiSender : Sender;
  aiTimestamp : JsDate;
  aiType : MessageType;
  aiMetadata : option Metadata
}.

(** The second argument of [generateResponse]. *)
Record GenerationContext : Type := {
  ctxMood : MoodAnalysis;
  ctxLocation : LocationContext;
  messageHistory : list AIServiceMessage;
  isGroupMention : bool;
  specificRequest : string
}.

(** [useAIService()]: every method is asynchronous, so a failure is a
    rejected promise, observed where the handler awaits it.  Two calls in
    flight at once settle in the order the service answers them:
    [moodSettlesFirst text] tells whether the promise of [detectMood] for
    [text] settles before that of [getHyperlocalContext] for it. *)
Record AIService : Type := {
  initializeConfig : Outcome unit;
  detectMood : string -> Outcome MoodAnalysis;
  getHyperlocalContext : string -> string -> Outcome LocationContext;
  generateResponse : string -> GenerationContext -> Outcome string;
  moodSettlesFirst : string -> bool
}.

(** The places where a handler calls [setMessages].  Each is reached at
    most once in one run of a handler. *)
Inductive Site : Type :=
| UserAppend | AiAppend | FallbackAppend
| ImageAppend | BillAppend | ErrorAppend.

#[export] Instance Site_eq_dec : EqDecision Site.
Proof. solve_decision. Defined.

(** What the handlers take from the platform and from modules that are not
    part of the component: the wall clock (its readings in the order they
    are taken), [Date.prototype.toISOString], [String.prototype.substring]
    (it counts UTF-16 units), whether the store rejects a write, and
    [handleKVError] and [sanitizeKVKey] of [utils/errorHandling].  The
    component wraps every call of [setMessages] in a [try] with a [catch]
    for the storage error, so a write may throw: [kvFault] says at which
    sites it does, and with what. *)
Record Runtime : Type := {
  clock : nat -> Z;
  toISOString : Z -> string;
  substring : string -> nat -> nat -> string;
  kvFault : Site -> option Thrown;
  handleKVError : Thrown -> string -> option string -> ErrorHandling.AppError;
  sanitizeKVKey : string -> string
}.

Record ChatInterfaceProps : Type := {
  chatId : string;
  userConsents : gmap string bool;
  onChatUpdate : bool
}.

(** [userConsents.name] as a condition: an absent entry is falsy. *)
Definition consent (props : ChatInterfaceProps) (name : string) : bool :=
  default false (userConsents props !! name).

Definition kvKey (rt : Runtime) (props : ChatInterfaceProps) : string :=
  "chat-messages-" +:+ sanitizeKVKey rt (chatId props).

Inductive Callback : Type := BillResponse.

(** The component state ([useState]), the key-value store behind [useKV],
    the timers set and not yet fired, and the number of clock readings
    taken. *)
Record World : Type := {
  message : string;
  isTyping : bool;
  isSending : bool;
  kv : gmap string (list Message);
  timers : list (Callback * Z);
  readings : nat
}.

Inductive LogArg : Type :=
| LogText (s : string)
| LogThrown (e : Thrown).

(** The calls a handler makes to its collaborators.  [console.log] (debug
    output) is left out. *)
Inductive Event : Type :=
| SetMessages (site : Site) (appended : Message)
| ConsoleError (args : list LogArg)
| ToastError (text : string)
| InitializeConfig
| DetectMood (text : string)
| GetHyperlocalContext (city text : string)
| GenerateResponse (text : string) (ctx : GenerationContext)
| OnChatUpdate (chat preview : string).

Abbreviation M := (Eff World Event).

Definition setMessage (s : string) : M unit :=
  modify (fun w => {| message := s; isTyping := isTyping w;
                      isSending := isSending w; kv := kv w;
                      timers := timers w; readings := readings w |}).

Definition setIsTyping (b : bool) : M unit :=
  modify (fun w => {| message := message w; isTyping := b;
                      isSending := isSending w; kv := kv w;
                      timers := timers w; readings := readings w |}).

Definition setIsSending (b : bool) : M unit :=
  modify (fun w => {| message := message w; isTyping := isTyping w;
                      isSending := b; kv := kv w;
                      timers := timers w; readings := readings w |}).

Definition setKv (store : gmap string (list Message)) : M unit :=
  modify (fun w => {| message := message w; isTyping := isTyping w;
                      isSending := isSending w; kv := store;
                      timers := timers w; readings := readings w |}).

Definition setTimers (pending : list (Callback * Z)) : M unit :=
  modify (fun w => {| message := message w; isTyping := isTyping w;
                      isSending := isSending w; kv := kv w;
                      timers := pending; readings := readings w |}).

Definition setTimeout (callback : Callback) (delay : Z) : M unit :=
  w ← get; setTimers (timers w ++ [(callback, delay)]).

(** [Date.now()], and [new Date()] read as its time value. *)
Definition dateNow (rt : Runtime) : M Z := fun w =>
  {| outcome := Returns (clock rt (readings w));
     after := {| message := message w; isTyping := isTyping w;
                 isSending := isSending w; kv := kv w;
                 timers := timers w; readings := S (readings w) |};
     emitted := [] |}.

Definition toastError (s : string) : M unit := emit (ToastError s).
Definition consoleError (args : list LogArg) : M unit := emit (ConsoleError args).

(** *** The store adapter *)

(** The updater every handler gives to [setMessages]:
    [prev => [...(prev || []), m]]. *)
Definition appendMessage (m : Message) (prev : option (list Message))
  : list Message :=
  default [] prev ++ [m].

(** One successful write of the store adapter on the whole store. *)
Definition storeAppend (key : string) (store : gmap string (list Message))
    (m : Message) : gmap string (list Message) :=
  <[key := appendMessage m (store !! key)]> store.

(** [setMessages(updater)] of [useKV(kvKey, [])]: the updater is applied to
    the value stored under the key of this chat, unless the store rejects
    the write. *)
Definition setMessages (rt : Runtime) (props : ChatInterfaceProps)
    (site : Site) (m : Message) : M unit :=
  emit (SetMessages site m);;
  match kvFault rt site with
  | Some e => throw e
  | None => w ← get; setKv (storeAppend (kvKey rt props) (kv w) m)
  end.

(** [messages || []] for the chat stored under [key]. *)
Definition messagesOf (key : string) (w : World) : list Message :=
  default [] (kv w !! key).

(** *** [sendMessage] *)

Definition msgId (t : Z) : string := "msg-" +:+ pretty t.

Definition neutralMood : MoodAnalysis :=
  {| mood := "neutral"; moodConfidence := 0; moodSuggestions := [] |}.

Definition emptyLocation : LocationContext :=
  {| area := EmptyString; locationSuggestions := [] |}.

Definition toAIServiceMessage (msg : Message) : AIServiceMessage :=
  {| aiId := id msg;
     aiContent := content msg;
     aiSender := match sender msg with user => user | ai => ai end;
     aiTimestamp := NewDate (timestamp msg);
     aiType := type msg;
     aiMetadata := metadata msg |}.

Definition aiDisclaimer : string :=
  "AI-generated response. Verify important information independently.".

Definition troubleshooting : string :=
  "I'm currently having trouble connecting to the AI service. This could be because:"
  +:+ nl +:+ nl
  +:+ "🔧 **Configuration needed:** Go to Settings → AI Configuration to set up your AI provider"
  +:+ nl +:+ nl
  +:+ "🌐 **Connection issues:** Check your internet connection"
  +:+ nl +:+ nl
  +:+ "⚙️ **Service temporarily unavailable:** Please try again in a moment"
  +:+ nl +:+ nl
  +:+ "**Based on your message, here are some immediate suggestions:**".

Definition fallbackDisclaimer : string :=
  "This is a fallback response due to AI service unavailability. Please configure your AI provider in Settings for full functionality.".

Definition userMessageOf (rt : Runtime) (t d : Z) (input : string) : Message :=
  {| id := msgId t;
     content := trim input;
     sender := user;
     timestamp := toISOString rt d;
     type := text;
     metadata := None |}.

Definition aiMessageOf (rt : Runtime) (t d : Z) (aiResponseContent : string)
    (moodAnalysis : MoodAnalysis) : Message :=
  {| id := msgId (t + 1);
     content := aiResponseContent;
     sender := ai;
     timestamp := toISOString rt d;
     type := text;
     metadata := Some {| confidence := Some (moodConfidence moodAnalysis);
                         needsPermission := None;
                         actionItems := None;
                         disclaimer := Some aiDisclaimer |} |}.

Definition fallbackMessageOf (rt : Runtime) (t d : Z) (currentMessage : string)
  : Message :=
  {| id := msgId (t + 1);
     content := troubleshooting +:+ getFallbackSuggestion currentMessage;
     sender := ai;
     timestamp := toISOString rt d;
     type := text;
     metadata := Some {| confidence := Some (1 # 10);
                         needsPermission := None;
                         actionItems := None;
                         disclaimer := Some fallbackDisclaimer |} |}.

(** The two enrichment calls inside [Promise.all]: both array elements are
    evaluated, so both calls are made where consented, before the result of
    either is awaited.  A default made with [Promise.resolve] never
    rejects, so the order of settling counts only between two calls. *)
Definition enrich (svc : AIService) (props : ChatInterfaceProps)
    (currentMessage : string) : M (MoodAnalysis * LocationContext) :=
  moodPromise ←
    (if consent props "moodDetection"
     then call (DetectMood currentMessage) (detectMood svc currentMessage)
     else mret (Returns neutralMood));
  locationPromise ←
    (if consent props "locationServices"
     then call (GetHyperlocalContext "Bangalore" currentMessage)
               (getHyperlocalContext svc "Bangalore" currentMessage)
     else mret (Returns emptyLocation));
  await (promiseAll (moodSettlesFirst svc currentMessage)
                    moodPromise locationPromise).

(** The body of the second [try] of [sendMessage].  The callback
    [onChatUpdate] of the parent is taken not to throw. *)
Definition respond (rt : Runtime) (svc : AIService) (props : ChatInterfaceProps)
    (messages : option (list Message)) (currentMessage : string) : M unit :=
  initialized ← call InitializeConfig (initializeConfig svc);
  await initialized;;
  enrichment ← enrich svc props currentMessage;
  let moodAnalysis := fst enrichment in
  let locationContext := snd enrichment in
  let aiServiceMessages := map toAIServiceMessage (default [] messages) in
  let ctx := {| ctxMood := moodAnalysis;
                ctxLocation := locationContext;
                messageHistory := aiServiceMessages;
                isGroupMention := includes (toLowerCase currentMessage) "@sahaay";
                specificRequest := currentMessage |} in
  generated ← call (GenerateResponse currentMessage ctx)
                   (generateResponse svc currentMessage ctx);
  aiResponseContent ← await generated;
  t ← dateNow rt;
  d ← dateNow rt;
  let aiMessage := aiMessageOf rt t d aiResponseContent moodAnalysis in
  tryCatch
    (setMessages rt props AiAppend aiMessage;;
     if onChatUpdate props
     then emit (OnChatUpdate (chatId props) (substring rt (content aiMessage) 0 100))
     else mret tt)
    (fun error =>
       let appError := handleKVError rt error "add AI message" None in
       toastError (ErrorHandling.message appError)).

(** The [catch] clause of the second [try] of [sendMessage]. *)
Definition fallback (rt : Runtime) (props : ChatInterfaceProps)
    (currentMessage : string) (error : Thrown) : M unit :=
  consoleError [LogText "AI response error:"; LogThrown error];;
  t ← dateNow rt;
  d ← dateNow rt;
  let fallbackMessage := fallbackMessageOf rt t d currentMessage in
  tryCatch
    (setMessages rt props FallbackAppend fallbackMessage)
    (fun kvError =>
       let appError := handleKVError rt kvError "add fallback message" None in
       toastError (ErrorHandling.message appError));;
  toastError "Failed to get AI response. Using fallback response.".

(** [sendMessage].  The handler closes over the values of the render it
    was created in: the input [message], the flag [isSending] and the
    stored [messages] are those of the world it starts from. *)
Definition sendMessage (rt : Runtime) (svc : AIService)
    (props : ChatInterfaceProps) : M unit :=
  w0 ← get;
  let message := message w0 in
  let isSending := isSending w0 in
  let messages := kv w0 !! kvKey rt props in
  if negb (truthy (trim message)) || isSending then mret tt
  else
    setIsSending true;;
    t ← dateNow rt;
    d ← dateNow rt;
    let userMessage := userMessageOf rt t d message in
    saved ←
      tryCatch
        (setMessages rt props UserAppend userMessage;; mret true)
        (fun error =>
           consoleError [LogText "KV Storage Error Details:"; LogThrown error];;
           let appError :=
             handleKVError rt error "add user message" (Some (kvKey rt props)) in
           toastError (ErrorHandling.message appError);;
           setIsSending false;;
           mret false);
    if negb saved then mret tt
    else
      let currentMessage := trim message in
      setMessage EmptyString;;
      setIsTyping true;;
      tryFinally
        (tryCatch
           (respond rt svc props messages currentMessage)
           (fallback rt props currentMessage))
        (setIsTyping false;; setIsSending false).

(** [initializeAI], the effect run when the component mounts. *)
Definition initializeAI (svc : AIService) : M unit :=
  tryCatch
    (initialized ← call InitializeConfig (initializeConfig svc);
     await initialized)
    (fun error =>
       consoleError [LogText "Failed to initialize AI service:"; LogThrown error]).

(** *** Image attachments *)

Module File.
Record t : Type := { name : string; size : Z; type : string }.
End File.

Definition billContent : string :=
  "I can see this is a BESCOM electricity bill. Here's what I found:"
  +:+ nl +:+ nl +:+ "💡 **Bill Amount**: ₹734"
  +:+ nl +:+ "📅 **Due Date**: 22 Sep 2024"
  +:+ nl +:+ "🏠 **Service Connection**: 1234567890"
  +:+ nl +:+ nl
  +:+ "Would you like me to create a UPI payment link or set a reminder?".

Definition billResponseOf (rt : Runtime) (t d : Z) : Message :=
  {| id := msgId (t + 1);
     content := billContent;
     sender := ai;
     timestamp := toISOString rt d;
     type := text;
     metadata :=
       Some {| confidence := Some (95 # 100);
               needsPermission := None;
               actionItems :=
                 Some ["Create UPI Payment Link"; "Set Reminder"; "View Bill Details"];
               disclaimer :=
                 Some "Bill processing is automated. Please verify details before payment." |} |}.

(** The function given to [setTimeout] in [processImageUpload]. *)
Definition billResponseCallback (rt : Runtime) (props : ChatInterfaceProps)
  : M unit :=
  t ← dateNow rt;
  d ← dateNow rt;
  let billResponse := billResponseOf rt t d in
  tryCatch
    (setMessages rt props BillAppend billResponse)
    (fun error =>
       let appError := handleKVError rt error "add bill response" None in
       toastError (ErrorHandling.message appError));;
  setIsTyping false.

Definition runCallback (rt : Runtime) (props : ChatInterfaceProps)
    (callback : Callback) : M unit :=
  match callback with
  | BillResponse => billResponseCallback rt props
  end.

(** The oldest pending timer fires. *)
Definition fireTimer (rt : Runtime) (props : ChatInterfaceProps) : M unit :=
  w ← get;
  match timers w with
  | [] => mret tt
  | (callback, _) :: pending => setTimers pending;; runCallback rt props callback
  end.

Definition imageMessageOf (rt : Runtime) (t d : Z) (file : File.t) : Message :=
  {| id := msgId t;
     content := "📷 Image uploaded: " +:+ File.name file;
     sender := user;
     timestamp := toISOString rt d;
     type := image;
     metadata := None |}.

Definition errorResponseOf (rt : Runtime) (t d : Z) (errorMessage : string)
  : Message :=
  {| id := msgId (t + 1);
     content := "❌ Error processing image: " +:+ errorMessage;
     sender := ai;
     timestamp := toISOString rt d;
     type := text;
     metadata := Some {| confidence := Some 0%Q;
                         needsPermission := None;
                         actionItems := None;
                         disclaimer := Some "Error occurred during file processing." |} |}.

Definition sizeTooLarge : string :=
  "File size too large. Please select an image under 10MB.".

Definition invalidFileType : string :=
  "Invalid file type. Please select an image file.".

(** The [try] block of [processImageUpload]. *)
Definition acceptImage (rt : Runtime) (props : ChatInterfaceProps)
    (file : File.t) : M unit :=
  t ← dateNow rt;
  d ← dateNow rt;
  let imageMessage := imageMessageOf rt t d file in
  saved ←
    tryCatch
      (setMessages rt props ImageAppend imageMessage;; mret true)
      (fun error =>
         let appError := handleKVError rt error "add image message" None in
         toastError (ErrorHandling.message appError);;
         mret false);
  if negb saved then mret tt
  else
    setIsTyping true;;
    if (10 * 1024 * 1024 <? File.size file)%Z
    then throw (ErrorObject sizeTooLarge)
    else if negb (String.prefix "image/" (File.type file))
    then throw (ErrorObject invalidFileType)
    else setTimeout BillResponse 2000.

(** The [catch] clause of [processImageUpload]. *)
Definition rejectImage (rt : Runtime) (props : ChatInterfaceProps)
    (error : Thrown) : M unit :=
  setIsTyping false;;
  let errorMessage :=
    match error with
    | ErrorObject message => message
    | OtherValue _ => "Unknown error occurred"
    end in
  toastError errorMessage;;
  t ← dateNow rt;
  d ← dateNow rt;
  let errorResponse := errorResponseOf rt t d errorMessage in
  tryCatch
    (setMessages rt props ErrorAppend errorResponse)
    (fun kvError =>
       let appError := handleKVError rt kvError "add error message" None in
       consoleError [LogText (ErrorHandling.message appError)]).

Definition processImageUpload (rt : Runtime) (props : ChatInterfaceProps)
    (file : File.t) : M unit :=
  tryCatch (acceptImage rt props file) (rejectImage rt props).

(** [processFileUpload]: [files] is [event.target.files]. *)
Definition processFileUpload (rt : Runtime) (props : ChatInterfaceProps)
    (files : list File.t) : M unit :=
  match files with
  | [] => mret tt
  | file :: _ =>
      if String.prefix "image/" (File.type file)
      then processImageUpload rt props file
      else mret tt
  end.

(** Everything of the component that runs after it has rendered. *)
Inductive Handler : Type :=
| InitializeAI
| SendMessage
| ProcessFileUpload (files : list File.t)
| ProcessImageUpload (file : File.t)
| FireTimer.

Definition run (rt : Runtime) (svc : AIService) (props : ChatInterfaceProps)
    (h : Handler) : M unit :=
  match h with
  | InitializeAI => initializeAI svc
  | SendMessage => sendMessage rt svc props
  | ProcessFileUpload files => processFileUpload rt props files
  | ProcessImageUpload file => processImageUpload rt props file
  | FireTimer => fireTimer rt props
  end.


(** *** Observations on a run *)

(** The operation name and the key a [catch] clause hands to
    [handleKVError] for a failed write at a site. *)
Definition operation (site : Site) : string :=
  match site with
  | UserAppend => "add user message"
  | AiAppend => "add AI message"
  | FallbackAppend => "add fallback message"
  | ImageAppend => "add image message"
  | BillAppend => "add bill response"
  | ErrorAppend => "add error message"
  end.

Definition reportedKey (rt : Runtime) (props : ChatInterfaceProps)
    (site : Site) : option string :=
  match site with
  | UserAppend => Some (kvKey rt props)
  | _ => None
  end.

(** The text of the application error for a write rejected with [e]. *)
Definition storageReport (rt : Runtime) (props : ChatInterfaceProps)
    (site : Site) (e : Thrown) : string :=
  ErrorHandling.message
    (handleKVError rt e (operation site) (reportedKey rt props site)).

(** The messages a run stored: those of its [setMessages] calls that the
    store did not reject, in the order of the calls. *)
Definition stored (rt : Runtime) (events : list Event) : list Message :=
  omap (fun e =>
          match e with
          | SetMessages site m =>
              match kvFault rt site with
              | None => Some m
              | Some _ => None
              end
          | _ => None
          end) events.

(** The texts of the toasts of a run. *)
Definition toasts (events : list Event) : list string :=
  omap (fun e => match e with ToastError notice => Some notice | _ => None end)
       events.

(** What a run wrote to the console with [console.error]. *)
Definition consoleErrors (events : list Event) : list (list LogArg) :=
  omap (fun e => match e with ConsoleError args => Some args | _ => None end)
       events.

(** The AI service with another mood classifier, with another locality
    collaborator, and with its enrichment calls settling in another
    order. *)
Definition withDetectMood (svc : AIService)
    (classifier : string -> Outcome MoodAnalysis) : AIService :=
  {| initializeConfig := initializeConfig svc;
     detectMood := classifier;
     getHyperlocalContext := getHyperlocalContext svc;
     generateResponse := generateResponse svc;
     moodSettlesFirst := moodSettlesFirst svc |}.

Definition withHyperlocalContext (svc : AIService)
    (locality : string -> string -> Outcome LocationContext) : AIService :=
  {| initializeConfig := initializeConfig svc;
     detectMood := detectMood svc;
     getHyperlocalContext := locality;
     generateResponse := generateResponse svc;
     moodSettlesFirst := moodSettlesFirst svc |}.

Definition withSettlingOrder (svc : AIService) (order : string -> bool)
  : AIService :=
  {| initializeConfig := initializeConfig svc;
     detectMood := detectMood svc;
     getHyperlocalContext := getHyperlocalContext svc;
     generateResponse := generateResponse svc;
     moodSettlesFirst := order |}.

(** The enrichment calls of a run, in the order they were made. *)
Definition enrichmentCalls (events : list Event) : list Event :=
  omap (fun e =>
          match e with
          | DetectMood _ | GetHyperlocalContext _ _ => Some e
          | _ => None
          end) events.

(** A call of the AI service that a run made and that failed with [e]. *)
Definition failedCall (svc : AIService) (events : list Event) (e : Thrown)
  : Prop :=
  (In InitializeConfig events /\ initializeConfig svc = Throws e)
  \/ (exists input,
        In (DetectMood input) events /\ detectMood svc input = Throws e)
  \/ (exists city input,
        In (GetHyperlocalContext city input) events
        /\ getHyperlocalContext svc city input = Throws e)
  \/ (exists input ctx,
        In (GenerateResponse input ctx) events
        /\ generateResponse svc input ctx = Throws e).

(** *** The input surface *)

Module KeyboardEvent.
Record t : Type := { key : string; shiftKey : bool }.
End KeyboardEvent.

(** The [onChange] handler of the input: [setMessage(e.target.value)]. *)
Definition onChange (value : string) : M unit := setMessage value.

(** [handleKeyPress].  The result tells whether [e.preventDefault()] was
    called.  [sendMessage()] is started and not awaited; no other handler
    runs in between, and its run is taken whole. *)
Definition handleKeyPress (rt : Runtime) (svc : AIService)
    (props : ChatInterfaceProps) (e : KeyboardEvent.t) : M bool :=
  prevented ←
    (if bool_decide (KeyboardEvent.key e = "Enter")
        && negb (KeyboardEvent.shiftKey e)
     then sendMessage rt svc props;; mret true
     else mret false);
  (if bool_decide (KeyboardEvent.key e = "Escape")
   then setMessage EmptyString
   else mret tt);;
  mret prevented.

(** The [disabled] attribute of the send button:
    [!message.trim() || isSending]. *)
Definition sendDisabled (w : World) : bool :=
  negb (truthy (trim (message w))) || isSending w.

(** A user types one input after the other and sends each. *)
Fixpoint converse (rt : Runtime) (svc : AIService)
    (props : ChatInterfaceProps) (inputs : list string) : M unit :=
  match inputs with
  | [] => mret tt
  | input :: later =>
      onChange input;;
      sendMessage rt svc props;;
      converse rt svc props later
  end.

(** One call of [setMessages] after the other, each with the updater that
    appends one message: [setMessages(prev => [...(prev || []), m])]. *)
Fixpoint appendAll (rt : Runtime) (props : ChatInterfaceProps)
    (appends : list (Site * Message)) : M unit :=
  match appends with
  | [] => mret tt
  | (site, m) :: later =>
      setMessages rt props site m;;
      appendAll rt props later
  end.

(** An image is picked and the timer set for it, if any, fires. *)
Definition uploadAndWait (rt : Runtime) (props : ChatInterfaceProps)
    (file : File.t) : M unit :=
  processImageUpload rt props file;;
  fireTimer rt props.

(** The sites a run wrote at, and the generation requests it made, in the
    order of the calls. *)
Definition writes (events : list Event) : list Site :=
  omap (fun e => match e with SetMessages site _ => Some site | _ => None end)
       events.

Definition generationCalls (events : list Event)
  : list (string * GenerationContext) :=
  omap (fun e =>
          match e with
          | GenerateResponse input ctx => Some (input, ctx)
          | _ => None
          end) events.

(** The transcript two messages at a time: one of the user, one of the
    assistant, per exchange. *)
Definition exchanges (n : nat) : list Sender :=
  concat (replicate n [user; ai]).

End ChatInterface.

(** ** The [MessagingApp] component *)

Module MessagingApp.

Inductive Sender : Type := user | ai.
Inductive Role : Type := userRole | assistant.

(** What [handleSendMessage] reads of a stored message and of a chat. *)
Record Message : Type := { content : string; sender : Sender }.
Record Chat : Type := { id : string; type : string }.

Record AIConfig : Type := { enabled : bool; apiKey : option string }.
Record Privacy : Type := { moodDetection : bool }.
Record Settings : Type := { aiConfig : AIConfig; privacy : Privacy }.

(** What the handler takes from [useAppStore()], as the render it closes
    over saw it. *)
Record AppStore : Type := {
  currentChatId : option string;
  chats : list Chat;
  messages : gmap string (list Message);
  settings : Settings
}.

Record HistoryEntry : Type := { role : Role; historyContent : string }.

Record Options : Type := { optMood : option string; isGroup : bool }.

Section WithMetadata.
(** The metadata of a response of the AI service, passed on untouched. *)
Context {Metadata : Type}.

Record Response : Type := {
  responseContent : string;
  responseMetadata : Metadata
}.

Record AIService : Type := {
  generateResponse : string -> list HistoryEntry -> Options -> Outcome Response
}.

(** The argument of the store action [addMessage]. *)
Record NewMessage : Type := {
  newContent : string;
  newSender : Sender;
  newChatId : string;
  newMetadata : option Metadata
}.

(** The component state ([useState]). *)
Record World : Type := { messageInput : string; isGenerating : bool }.

Inductive LogArg : Type :=
| LogText (s : string)
| LogThrown (e : Thrown).

(** The calls the handler makes: the store action [addMessage],
    [getAIService] of [services/aiService], the generation call, the
    console and the toasts.  The store is not part of the component: a
    message handed to [addMessage] is recorded as that call. *)
Inductive Event : Type :=
| AddMessage (m : NewMessage)
| GetAIService (config : AIConfig)
| GenerateResponse (text : string) (history : list HistoryEntry) (options : Options)
| ConsoleError (args : list LogArg)
| ToastError (text : string).

Abbreviation M := (Eff World Event).

Definition setMessageInput (s : string) : M unit :=
  modify (fun w => {| messageInput := s; isGenerating := isGenerating w |}).

Definition setIsGenerating (b : bool) : M unit :=
  modify (fun w => {| messageInput := messageInput w; isGenerating := b |}).

(** Truthiness of an optional string: absent and empty are falsy. *)
Definition present (s : option string) : bool :=
  match s with
  | Some text => truthy text
  | None => false
  end.

(** [chats.find(chat => chat.id === currentChatId)]. *)
Definition currentChat (store : AppStore) : option Chat :=
  List.find
    (fun chat => bool_decide (Some (id chat) = currentChatId store))
    (chats store).

(** [currentChatId ? messages[currentChatId] || [] : []]. *)
Definition currentMessages (store : AppStore) : list Message :=
  match currentChatId store with
  | Some chat =>
      if truthy chat then default [] (messages store !! chat) else []
  | None => []
  end.

(** [l.slice(-n)]: the last [n] elements. *)
Definition sliceLast {A : Type} (n : nat) (l : list A) : list A :=
  drop (length l - n) l.

Definition toHistoryEntry (msg : Message) : HistoryEntry :=
  {| role := match sender msg with user => userRole | ai => assistant end;
     historyContent := content msg |}.

(** The [try] block of [handleSendMessage]. *)
Definition generate (getAIService : AIConfig -> Outcome AIService)
    (store : AppStore) (chat userMessage : string) : M unit :=
  emit (GetAIService (aiConfig (settings store)));;
  aiService ← await (getAIService (aiConfig (settings store)));
  let conversationHistory :=
    map toHistoryEntry (sliceLast 10 (currentMessages store)) in
  let options :=
    {| optMood := if moodDetection (privacy (settings store))
                  then Some "auto" else None;
       isGroup := match currentChat store with
                  | Some c => bool_decide (type c = "group")
                  | None => false
                  end |} in
  generated ← call (GenerateResponse userMessage conversationHistory options)
                   (generateResponse aiService userMessage conversationHistory options);
  response ← await generated;
  emit (AddMessage {| newContent := responseContent response;
                      newSender := ai;
                      newChatId := chat;
                      newMetadata := Some (responseMetadata response) |}).

(** [handleSendMessage]. *)
Definition handleSendMessage (getAIService : AIConfig -> Outcome AIService)
    (store : AppStore) : M unit :=
  w0 ← get;
  let messageInput := messageInput w0 in
  match currentChatId store with
  | None => mret tt
  | Some chat =>
      if negb (truthy (trim messageInput)) || negb (truthy chat) then mret tt
      else
        let userMessage := trim messageInput in
        setMessageInput EmptyString;;
        emit (AddMessage {| newContent := userMessage;
                            newSender := user;
                            newChatId := chat;
                            newMetadata := None |});;
        if enabled (aiConfig (settings store))
           && present (apiKey (aiConfig (settings store)))
        then
          setIsGenerating true;;
          tryFinally
            (tryCatch
               (generate getAIService store chat userMessage)
               (fun error =>
                  emit (ConsoleError [LogText "AI Error:"; LogThrown error]);;
                  emit (ToastError "Failed to generate AI response")))
            (setIsGenerating false)
        else mret tt
  end.

End WithMetadata.

Arguments Response : clear implicits.
Arguments AIService : clear implicits.
Arguments NewMessage : clear implicits.
Arguments Event : clear implicits.

Section Observations.
Context {Metadata : Type}.

(** The messages a run handed to [addMessage], and the texts of its toasts,
    in the order of the calls. *)
Definition added (events : list (Event Metadata)) : list (NewMessage Metadata) :=
  omap (fun e => match e with AddMessage m => Some m | _ => None end) events.

Definition toasts (events : list (Event Metadata)) : list string :=
  omap (fun e => match e with ToastError notice => Some notice | _ => None end)
       events.

(** The options [handleSendMessage] passes to the generation call. *)
Definition optionsOf (store : AppStore) : Options :=
  {| optMood := if moodDetection (privacy (settings store))
                then Some "auto" else None;
     isGroup := match currentChat store with
                | Some c => bool_decide (type c = "group")
                | None => false
                end |}.

End Observations.

End MessagingApp.

(** ** Sample collaborators *)

(** A runtime, services and worlds on which the statements below are run. *)
Module Sample.
Import ChatInterface.

Definition runtime (fault : Site -> option Thrown) : Runtime :=
  {| clock := fun n => (1700000000000 + Z.of_nat n)%Z;
     toISOString := fun t => "T" +:+ pretty t;
     substring := fun s from to => String.substring from (to - from) s;
     kvFault := fault;
     handleKVError := fun _ op _ =>
       {| ErrorHandling.message := "Storage error: failed to " +:+ op |};
     sanitizeKVKey := fun s => s |}.

Definition noFault : Site -> option Thrown := fun _ => None.

Definition quotaExceeded : Thrown := ErrorObject "QuotaExceededError".

Definition faultAt (site : Site) : Site -> option Thrown :=
  fun s => if decide (s = site) then Some quotaExceeded else None.

Definition offline : Thrown := ErrorObject "Failed to fetch".

Definition happy : MoodAnalysis :=
  {| mood := "happy"; moodConfidence := 3 # 4; moodSuggestions := [] |}.

Definition serviceUp : AIService :=
  {| initializeConfig := Returns tt;
     detectMood := fun _ => Returns happy;
     getHyperlocalContext := fun _ _ =>
       Returns {| area := "Indiranagar"; locationSuggestions := [] |};
     generateResponse := fun input _ => Returns ("You said: " +:+ input);
     moodSettlesFirst := fun _ => true |}.

Definition serviceDown : AIService :=
  {| initializeConfig := Returns tt;
     detectMood := fun _ => Returns happy;
     getHyperlocalContext := fun _ _ =>
       Returns {| area := "Indiranagar"; locationSuggestions := [] |};
     generateResponse := fun _ _ => Throws offline;
     moodSettlesFirst := fun _ => true |}.

Definition serviceUnconfigured : AIService :=
  {| initializeConfig := Throws (ErrorObject "No AI provider configured");
     detectMood := fun _ => Returns happy;
     getHyperlocalContext := fun _ _ => Throws offline;
     generateResponse := fun _ _ => Throws offline;
     moodSettlesFirst := fun _ => true |}.

Definition noConsent : ChatInterfaceProps :=
  {| chatId := "chat-1"; userConsents := ∅; onChatUpdate := true |}.

Definition moodConsent : ChatInterfaceProps :=
  {| chatId := "chat-1";
     userConsents := {[ "moodDetection" := true ]};
     onChatUpdate := true |}.

Definition fullConsent : ChatInterfaceProps :=
  {| chatId := "chat-1";
     userConsents := {[ "moodDetection" := true; "locationServices" := true ]};
     onChatUpdate := true |}.

Definition timedOut : Thrown := ErrorObject "Request timed out".

(** A service whose two enrichment calls both fail, each with its own
    error, the mood classifier first or last. *)
Definition enrichmentDown (moodFirst : bool) : AIService :=
  {| initializeConfig := Returns tt;
     detectMood := fun _ => Throws offline;
     getHyperlocalContext := fun _ _ => Throws timedOut;
     generateResponse := fun input _ => Returns ("You said: " +:+ input);
     moodSettlesFirst := fun _ => moodFirst |}.

Definition indiranagar : LocationContext :=
  {| area := "Indiranagar"; locationSuggestions := [] |}.

Definition typed (input : string) : World :=
  {| message := input; isTyping := false; isSending := false;
     kv := ∅; timers := []; readings := 0 |}.

Definition sending (input : string) : World :=
  {| message := input; isTyping := true; isSending := true;
     kv := ∅; timers := []; readings := 0 |}.

(** The generation request of a first message sent without any consent. *)
Definition plainRequest (input : string) : GenerationContext :=
  {| ctxMood := neutralMood;
     ctxLocation := emptyLocation;
     messageHistory := [];
     isGroupMention := false;
     specificRequest := input |}.

Definition moodRequest (input : string) : GenerationContext :=
  {| ctxMood := happy;
     ctxLocation := emptyLocation;
     messageHistory := [];
     isGroupMention := false;
     specificRequest := input |}.

Definition fullRequest (input : string) : GenerationContext :=
  {| ctxMood := happy;
     ctxLocation := indiranagar;
     messageHistory := [];
     isGroupMention := false;
     specificRequest := input |}.

(** A message stored earlier, and a world whose chat holds it. *)
Definition earlier : Message :=
  {| id := "msg-1699999999000";
     content := "good morning";
     sender := user;
     timestamp := "T1699999999000";
     type := text;
     metadata := None |}.

Definition resumed (input : string) : World :=
  {| message := input; isTyping := false; isSending := false;
     kv := {[ "chat-messages-chat-1" := [earlier] ]};
     timers := []; readings := 0 |}.

Definition mebibyte : Z := 1024 * 1024.

Definition largePhoto : ChatInterface.File.t :=
  {| File.name := "bill.jpg"; File.size := 10 * mebibyte + 1;
     File.type := "image/jpeg" |}.

Definition smallPhoto : ChatInterface.File.t :=
  {| File.name := "bill.jpg"; File.size := 2 * mebibyte;
     File.type := "image/jpeg" |}.

(** The store and the AI service of [MessagingApp]. *)
Definition appStore (config : MessagingApp.AIConfig) : MessagingApp.AppStore :=
  {| MessagingApp.currentChatId := Some "chat-1";
     MessagingApp.chats :=
       [{| MessagingApp.id := "chat-1"; MessagingApp.type := "direct" |}];
     MessagingApp.messages := ∅;
     MessagingApp.settings :=
       {| MessagingApp.aiConfig := config;
          MessagingApp.privacy := {| MessagingApp.moodDetection := false |} |} |}.

(** A chat of twelve messages, the user and the assistant in turn. *)
Definition turn (n : nat) : MessagingApp.Message :=
  {| MessagingApp.content := "message " +:+ pretty n;
     MessagingApp.sender :=
       if Nat.odd n then MessagingApp.user else MessagingApp.ai |}.

Definition longChat (config : MessagingApp.AIConfig) : MessagingApp.AppStore :=
  {| MessagingApp.currentChatId := Some "chat-1";
     MessagingApp.chats :=
       [{| MessagingApp.id := "chat-1"; MessagingApp.type := "direct" |}];
     MessagingApp.messages := {[ "chat-1" := map turn (seq 1 12) ]};
     MessagingApp.settings :=
       {| MessagingApp.aiConfig := config;
          MessagingApp.privacy := {| MessagingApp.moodDetection := false |} |} |}.

Definition configured : MessagingApp.AIConfig :=
  {| MessagingApp.enabled := true; MessagingApp.apiKey := Some "sk-test" |}.


Definition unreachable (config : MessagingApp.AIConfig)
  : Outcome (MessagingApp.AIService unit) :=
  Returns {| MessagingApp.generateResponse := fun _ _ _ => Throws offline |}.

Definition composing (input : string) : MessagingApp.World :=
  {| MessagingApp.messageInput := input; MessagingApp.isGenerating := false |}.

Definition enterKey : KeyboardEvent.t :=
  {| KeyboardEvent.key := "Enter"; KeyboardEvent.shiftKey := false |}.

Definition escapeKey : KeyboardEvent.t :=
  {| KeyboardEvent.key := "Escape"; KeyboardEvent.shiftKey := false |}.

Definition document : ChatInterface.File.t :=
  {| File.name := "notes.pdf"; File.size := mebibyte;
     File.type := "application/pdf" |}.

Definition reachable (config : MessagingApp.AIConfig)
  : Outcome (MessagingApp.AIService unit) :=
  Returns {| MessagingApp.generateResponse := fun input _ _ =>
               Returns {| MessagingApp.responseContent := "You said: " +:+ input;
                          MessagingApp.responseMetadata := tt |} |}.

End Sample.

(** * Properties *)

(** ** Strings *)

Example trim_ex : trim ("  hi there " +:+ nl) = "hi there".
Proof. reflexivity. Qed.

Example lower_ex : toLowerCase "Check TRAFFIC @Sahaay" = "check traffic @sahaay".
Proof. reflexivity. Qed.

Lemma truthy_spec (s : string) : truthy s = true <-> s <> EmptyString.
Proof.
  unfold truthy; destruct s; simpl; split; intros H;
    try congruence; try reflexivity.
Qed.

Section Lowercase.

Lemma plain_not_lead (c : ascii) :
  plain c = true ->
  lowerAscii c = c
  /\ Ascii.eqb c "196" = false /\ Ascii.eqb c "226" = false.
Proof.
  destruct c as [[] [] [] [] [] [] [] []]; vm_compute; intros H;
    first [discriminate H | repeat split].
Qed.

Lemma plain_not_continuation (a c : ascii) :
  plain a = true -> Ascii.eqb c "176" = true \/ Ascii.eqb c "132" = true
                    \/ Ascii.eqb c "170" = true ->
  a <> c.
Proof.
  intros Ha Hc ->. destruct c as [[] [] [] [] [] [] [] []];
    vm_compute in Ha, Hc; try discriminate Ha;
    destruct Hc as [Hc | [Hc | Hc]]; discriminate Hc.
Qed.

Lemma toLowerCase_plain (c : ascii) (s : string) :
  plain c = true -> toLowerCase (String c s) = String c (toLowerCase s).
Proof.
  intros Hc. destruct (plain_not_lead c Hc) as (Hl & H1 & H2).
  cbn [toLowerCase]. destruct s as [|c2 [|c3 r3]];
    rewrite ?H1, ?H2, ?Hl; reflexivity.
Qed.

Lemma prefix_lower (k : string) :
  plainString k = true ->
  forall s, String.prefix k s = true -> String.prefix k (toLowerCase s) = true.
Proof.
  induction k as [|a k IH]; intros Hk s.
  - destruct (toLowerCase s); reflexivity.
  - cbn [plainString] in Hk. apply andb_prop in Hk as [Ha Hk].
    destruct s as [|b s]; cbn [String.prefix]; [discriminate|].
    destruct (ascii_dec a b) as [<-|]; [|discriminate].
    intros Hp. rewrite toLowerCase_plain by assumption.
    cbn [String.prefix]. destruct (ascii_dec a a); [|congruence].
    apply IH; assumption.
Qed.

Lemma includes_prefix (s k : string) :
  String.prefix k s = true -> includes s k = true.
Proof. intros H. destruct s; cbn [includes]; rewrite H; reflexivity. Qed.

Lemma includes_cons (c : ascii) (s k : string) :
  includes s k = true -> includes (String c s) k = true.
Proof. intros H. cbn [includes]. rewrite H. apply orb_true_r. Qed.

Lemma includes_step (a c : ascii) (k s : string) :
  a <> c ->
  includes (String c s) (String a k) = true -> includes s (String a k) = true.
Proof.
  intros Hne. cbn [includes String.prefix].
  destruct (ascii_dec a c); [contradiction|]. cbn [orb]. auto.
Qed.

Lemma includes_lower_bounded (a : ascii) (k : string) :
  plainString (String a k) = true ->
  forall n s, String.length s <= n ->
    includes s (String a k) = true ->
    includes (toLowerCase s) (String a k) = true.
Proof.
  intros Hk. pose proof Hk as Hak. cbn [plainString] in Hak.
  apply andb_prop in Hak as [Ha _].
  induction n as [|n IH]; intros s Hlen.
  - destruct s; [|cbn in Hlen; lia]. cbn. discriminate.
  - destruct s as [|c1 r1]; [cbn; discriminate|].
    cbn [String.length] in Hlen.
    cbn [includes]. intros Hin. apply orb_prop in Hin as [Hp | Hin].
    { apply includes_prefix, prefix_lower; assumption. }
    cbn [toLowerCase]. destruct r1 as [|c2 r2]; [cbn in Hin; discriminate|].
    cbn [String.length] in Hlen.
    destruct (Ascii.eqb c1 "196" && Ascii.eqb c2 "176") eqn:E1.
    { apply andb_prop in E1 as [_ E1].
      apply includes_step in Hin; [|apply plain_not_continuation; auto].
      do 3 apply includes_cons. apply IH; [lia | assumption]. }
    destruct r2 as [|c3 r3].
    { apply includes_cons. apply IH; [cbn; lia | assumption]. }
    cbn [String.length] in Hlen.
    destruct (Ascii.eqb c1 "226" && Ascii.eqb c2 "132" && Ascii.eqb c3 "170") eqn:E2.
    { apply andb_prop in E2 as [E2 E3]. apply andb_prop in E2 as [_ E2].
      apply includes_step in Hin; [|apply plain_not_continuation; auto].
      apply includes_step in Hin; [|apply plain_not_continuation; auto].
      apply includes_cons. apply IH; [lia | assumption]. }
    apply includes_cons. apply IH; [cbn; lia | assumption].
Qed.

(** A needle of plain lower-case ASCII that occurs in a message occurs in
    its lower case. *)
Lemma includes_lower (s k : string) :
  plainString k = true -> k <> EmptyString ->
  includes s k = true -> includes (toLowerCase s) k = true.
Proof.
  intros Hk Hne. destruct k as [|a k]; [congruence|].
  apply (includes_lower_bounded a k Hk (String.length s)). lia.
Qed.

End Lowercase.

(** ** The fallback suggestion selector *)

Section Selector.

Lemma suggestions_NoDup : NoDup suggestions.
Proof. apply (bool_decide_unpack _). vm_compute. exact I. Qed.

Lemma route_keyword_lower (message k : string) :
  In k (keywords Route) ->
  includes message k = true \/ includes (toLowerCase message) k = true ->
  includes (toLowerCase message) k = true.
Proof.
  intros Hk [H | H]; [|assumption].
  apply includes_lower; [| |assumption];
    cbn [keywords In] in Hk; intuition (subst; try reflexivity; discriminate).
Qed.

Ltac case_includes :=
  repeat match goal with
         | |- context [includes ?l ?k] =>
             destruct (includes l k); cbn [orb]; try reflexivity
         end.

Lemma getFallbackSuggestion_refines (message : string) :
  getFallbackSuggestion message
  = suggestionOf (firstCategory (toLowerCase message)).
Proof.
  unfold getFallbackSuggestion, firstCategory.
  cbn [priority List.find matches existsb keywords].
  generalize (toLowerCase message) as lowerMessage. intros lowerMessage.
  case_includes.
Qed.

Lemma suggestionOf_listed (c : Category) : In (suggestionOf c) suggestions.
Proof. destruct c; cbn [suggestionOf suggestions In]; tauto. Qed.

(** C2.  The selector is a total function of the message.  Its result is
    the suggestion of the first category, in the priority order route,
    billing, group summary, weather, translation, one of whose keywords
    occurs in the lowercased message, and the generic suggestion when none
    does; it is one of six pairwise different strings; and a message in
    which a route keyword occurs, as written or after lowercasing, gets
    the route suggestion whatever else it contains. *)
Theorem getFallbackSuggestion_first_match (message : string) :
  getFallbackSuggestion message
  = suggestionOf (firstCategory (toLowerCase message))
  /\ In (getFallbackSuggestion message) suggestions
  /\ NoDup suggestions
  /\ (forall k, In k (keywords Route) ->
        includes message k = true \/ includes (toLowerCase message) k = true ->
        getFallbackSuggestion message = routeSuggestion).
Proof.
  split; [apply getFallbackSuggestion_refines|].
  split; [rewrite getFallbackSuggestion_refines; apply suggestionOf_listed|].
  split; [apply suggestions_NoDup|].
  intros k Hk H. pose proof (route_keyword_lower message k Hk H) as Hl.
  unfold getFallbackSuggestion.
  cbn [keywords In] in Hk.
  destruct Hk as [<- | [<- | [<- | []]]]; rewrite Hl;
    rewrite ?orb_true_r; reflexivity.
Qed.

Lemma getFallbackSuggestion_first_match_witness :
  includes "Weather on my ROUTE" "weather" = false
  /\ includes (toLowerCase "Weather on my ROUTE") "weather" = true
  /\ getFallbackSuggestion "Weather on my ROUTE" = routeSuggestion.
Proof.
  split; [reflexivity|]. split; [reflexivity|].
  apply (proj2 (proj2 (proj2
           (getFallbackSuggestion_first_match "Weather on my ROUTE")))
           "route").
  - left. reflexivity.
  - right. reflexivity.
Defined.

End Selector.

(** ** The [ChatInterface] component *)

Module ChatInterfaceProofs.
Import ChatInterface.

(** *** The store *)

Lemma storeAppend_lookup (key : string) (store : gmap string (list Message))
    (m : Message) :
  default [] (storeAppend key store m !! key) = default [] (store !! key) ++ [m].
Proof. unfold storeAppend, appendMessage. rewrite lookup_insert_eq. reflexivity. Qed.

Lemma storeAppend_lookup_ne (key other : string)
    (store : gmap string (list Message)) (m : Message) :
  other <> key -> storeAppend key store m !! other = store !! other.
Proof. intros H. unfold storeAppend. apply lookup_insert_ne. congruence. Qed.

(** *** Running a handler symbolically *)

Ltac unfold_handlers :=
  cbv [sendMessage respond fallback enrich setMessages initializeAI
       processImageUpload processFileUpload acceptImage rejectImage
       billResponseCallback fireTimer runCallback run
       setMessage setIsTyping setIsSending setKv setTimers setTimeout
       dateNow toastError consoleError
       mbind mret Eff_bind Eff_ret throw tryCatch tryFinally emit get modify
       call await promiseAll
       outcome after emitted];
  cbn [message isTyping isSending kv timers readings
       withDetectMood withHyperlocalContext withSettlingOrder
       initializeConfig detectMood getHyperlocalContext generateResponse
       moodSettlesFirst
       app negb orb andb fst snd].

(** Case analysis on whatever the run consults next. *)
Ltac oracle :=
  match goal with
  | |- context [truthy ?x] => destruct (truthy x) eqn:?
  | |- context [isSending ?w] => destruct (isSending w) eqn:?
  | |- context [kvFault ?rt ?s] => destruct (kvFault rt s) eqn:?
  | |- context [initializeConfig ?svc] =>
      destruct (initializeConfig svc) as [[]|?] eqn:?
  | |- context [consent ?p ?n] => destruct (consent p n) eqn:?
  | |- context [detectMood ?svc ?x] => destruct (detectMood svc x) eqn:?
  | |- context [getHyperlocalContext ?svc ?c ?x] =>
      destruct (getHyperlocalContext svc c x) eqn:?
  | |- context [generateResponse ?svc ?x ?c] =>
      destruct (generateResponse svc x c) eqn:?
  | |- context [onChatUpdate ?p] => destruct (onChatUpdate p) eqn:?
  | |- context [Z.ltb ?a ?b] => destruct (Z.ltb a b) eqn:?
  | |- context [String.prefix ?a ?b] => destruct (String.prefix a b) eqn:?
  | |- context [match timers ?w with _ => _ end] =>
      destruct (timers w) as [|[[] ?] ?] eqn:?
  | |- context [moodSettlesFirst ?svc ?x] =>
      destruct (moodSettlesFirst svc x) eqn:?
  end; unfold_handlers.

Ltac listed := cbn [In]; repeat first [left; reflexivity | right].

Ltac conjuncts := repeat match goal with |- _ /\ _ => split end.

(** An event that a run is assumed to have emitted is looked up in the
    list the run emits on the path at hand. *)
Ltac find_event H :=
  cbn [In] in H;
  repeat (destruct H as [H | H]; [try discriminate H|]);
  try contradiction.

Lemma messagesOf_eq (key : string) (w : World) :
  messagesOf key w = default [] (kv w !! key).
Proof. reflexivity. Qed.

Ltac read_store :=
  rewrite ?messagesOf_eq; cbn [kv];
  rewrite ?storeAppend_lookup, <- ?app_assoc; cbn [app].

(** *** The guard *)

(** C3.  A send whose input trims to the empty string, or that is issued
    while [isSending] is set, does nothing: the world (with it the message
    list of the chat) is as before, and no call is made, neither to the
    store nor to the AI service. *)
Theorem sendMessage_guard (rt : Runtime) (svc : AIService)
    (props : ChatInterfaceProps) (w : World) :
  trim (message w) = EmptyString \/ isSending w = true ->
  sendMessage rt svc props w
  = {| outcome := Returns tt; after := w; emitted := [] |}.
Proof.
  intros [H | H]; unfold_handlers; rewrite H; unfold_handlers.
  - reflexivity.
  - rewrite orb_true_r. reflexivity.
Qed.

(** C4.  When the store rejects the append of the echoed user message, the
    send stops there: the one call made is that append, the storage error
    is logged and shown in a toast, no call goes to the AI service, the
    store is as before and [isSending] is cleared. *)
Theorem sendMessage_user_append_fails (rt : Runtime) (svc : AIService)
    (props : ChatInterfaceProps) (w : World) (error : Thrown) :
  trim (message w) <> EmptyString ->
  isSending w = false ->
  kvFault rt UserAppend = Some error ->
  let s := sendMessage rt svc props w in
  outcome s = Returns tt
  /\ emitted s
     = [SetMessages UserAppend
          (userMessageOf rt (clock rt (readings w)) (clock rt (S (readings w)))
                         (message w));
        ConsoleError [LogText "KV Storage Error Details:"; LogThrown error];
        ToastError (storageReport rt props UserAppend error)]
  /\ kv (after s) = kv w
  /\ isSending (after s) = false
  /\ isTyping (after s) = isTyping w
  /\ message (after s) = message w.
Proof.
  intros Hinput Hidle Hfault s. subst s.
  apply truthy_spec in Hinput.
  unfold_handlers. rewrite Hinput, Hidle. unfold_handlers.
  rewrite Hfault. unfold_handlers.
  repeat split.
Qed.

(** *** The reply *)

(** C1, as the code has it.  When the generation call of a send throws and
    the store takes the append of the fallback message, the message list
    of the chat grows by the user message followed by exactly one fallback
    message: from the assistant, of type text, with confidence 0.1, a
    non-empty disclaimer, and the troubleshooting text followed by the
    suggestion selected for the trimmed input. *)
Theorem sendMessage_fallback_appended (rt : Runtime) (svc : AIService)
    (props : ChatInterfaceProps) (w : World) (ctx : GenerationContext)
    (error : Thrown) :
  let currentMessage := trim (message w) in
  let s := sendMessage rt svc props w in
  In (GenerateResponse currentMessage ctx) (emitted s) ->
  generateResponse svc currentMessage ctx = Throws error ->
  kvFault rt FallbackAppend = None ->
  exists userMessage fallbackMessage data notice,
    messagesOf (kvKey rt props) (after s)
    = messagesOf (kvKey rt props) w ++ [userMessage; fallbackMessage]
    /\ sender userMessage = user
    /\ sender fallbackMessage = ai
    /\ type fallbackMessage = text
    /\ metadata fallbackMessage = Some data
    /\ confidence data = Some (1 # 10)
    /\ disclaimer data = Some notice
    /\ notice <> EmptyString
    /\ content fallbackMessage
       = troubleshooting +:+ getFallbackSuggestion currentMessage.
Proof.
  intros currentMessage s Hcall Hthrows Hstore. subst s currentMessage.
  revert Hcall. unfold_handlers. repeat oracle; intros Hcall; find_event Hcall.
  all: injection Hcall as <-; try congruence.
  all: do 4 eexists; split; [read_store; reflexivity|].
  all: cbn; repeat split; discriminate.
Qed.

(** C5, as the code has it.  When the generation call of a send returns
    and the store takes the append of the reply, the message list of the
    chat grows by the user message followed by exactly one message of the
    assistant, of type text, carrying the generated text, the confidence
    of the mood signal that went into the request, and the fixed notice on
    generated content.  The mood signal is the answer of the mood
    classifier when mood detection is consented to, and otherwise the
    neutral default, whose confidence is 0. *)
Theorem sendMessage_reply_appended (rt : Runtime) (svc : AIService)
    (props : ChatInterfaceProps) (w : World) (ctx : GenerationContext)
    (reply : string) :
  let currentMessage := trim (message w) in
  let s := sendMessage rt svc props w in
  In (GenerateResponse currentMessage ctx) (emitted s) ->
  generateResponse svc currentMessage ctx = Returns reply ->
  kvFault rt AiAppend = None ->
  exists userMessage aiMessage data,
    messagesOf (kvKey rt props) (after s)
    = messagesOf (kvKey rt props) w ++ [userMessage; aiMessage]
    /\ sender userMessage = user
    /\ sender aiMessage = ai
    /\ type aiMessage = text
    /\ content aiMessage = reply
    /\ metadata aiMessage = Some data
    /\ confidence data = Some (moodConfidence (ctxMood ctx))
    /\ disclaimer data = Some aiDisclaimer
    /\ (if consent props "moodDetection"
        then detectMood svc currentMessage = Returns (ctxMood ctx)
        else ctxMood ctx = neutralMood /\ moodConfidence (ctxMood ctx) = 0%Q).
Proof.
  intros currentMessage s Hcall Hreturns Hstore. subst s currentMessage.
  revert Hcall. unfold_handlers. repeat oracle; intros Hcall; find_event Hcall.
  all: injection Hcall as <-; try congruence.
  all: do 3 eexists; split; [read_store; reflexivity|].
  all: cbn; repeat split; congruence.
Qed.

(** *** Consent *)

(** C6.  A send that gets as far as the enrichment step calls the mood
    classifier exactly when [moodDetection] is consented to and the
    locality collaborator exactly when [locationServices] is, each once,
    with the trimmed input, and makes no other enrichment call.  Where a
    consent is missing the neutral mood with confidence 0, respectively
    the empty locality, stands in: when both signals arrive, the one
    generation request of the send carries exactly them, the answer of a
    collaborator where consented and the default otherwise.  When an
    enrichment call fails no generation request is made, and the error
    the handler sees is that of the failed call, of the one that settled
    first when both failed.  Without a consent its collaborator is never
    called, every generation request of the send carries the default in
    its place, and the whole run of the send, the generation request
    included, is the same whatever that collaborator would answer and
    whenever it would. *)
Theorem enrichment_gated_by_consent (rt : Runtime) (svc : AIService)
    (props : ChatInterfaceProps) (w : World) :
  let currentMessage := trim (message w) in
  let s := sendMessage rt svc props w in
  let moodPromise :=
    if consent props "moodDetection"
    then detectMood svc currentMessage else Returns neutralMood in
  let locationPromise :=
    if consent props "locationServices"
    then getHyperlocalContext svc "Bangalore" currentMessage
    else Returns emptyLocation in
  (currentMessage <> EmptyString ->
   isSending w = false ->
   kvFault rt UserAppend = None ->
   initializeConfig svc = Returns tt ->
   enrichmentCalls (emitted s)
   = (if consent props "moodDetection"
      then [DetectMood currentMessage] else [])
     ++ (if consent props "locationServices"
         then [GetHyperlocalContext "Bangalore" currentMessage] else [])
   /\ (forall moodAnalysis locationContext,
         moodPromise = Returns moodAnalysis ->
         locationPromise = Returns locationContext ->
         generationCalls (emitted s)
         = [(currentMessage,
             {| ctxMood := moodAnalysis;
                ctxLocation := locationContext;
                messageHistory :=
                  map toAIServiceMessage (messagesOf (kvKey rt props) w);
                isGroupMention :=
                  includes (toLowerCase currentMessage) "@sahaay";
                specificRequest := currentMessage |})])
   /\ (forall e,
         (moodPromise = Throws e
          /\ exists locationContext, locationPromise = Returns locationContext)
         \/ (locationPromise = Throws e
             /\ exists moodAnalysis, moodPromise = Returns moodAnalysis)
         \/ (exists e1 e2,
                moodPromise = Throws e1
                /\ locationPromise = Throws e2
                /\ e = if moodSettlesFirst svc currentMessage then e1 else e2) ->
         generationCalls (emitted s) = []
         /\ In (ConsoleError [LogText "AI response error:"; LogThrown e])
               (emitted s)))
  /\ (consent props "moodDetection" = false ->
      (forall input, ~ In (DetectMood input) (emitted s))
      /\ (forall input ctx,
            In (GenerateResponse input ctx) (emitted s) ->
            ctxMood ctx = neutralMood /\ moodConfidence (ctxMood ctx) = 0%Q)
      /\ (forall classifier order,
            sendMessage rt (withDetectMood (withSettlingOrder svc order)
                                           classifier) props w
            = s))
  /\ (consent props "locationServices" = false ->
      (forall city input, ~ In (GetHyperlocalContext city input) (emitted s))
      /\ (forall input ctx,
            In (GenerateResponse input ctx) (emitted s) ->
            ctxLocation ctx = emptyLocation)
      /\ (forall locality order,
            sendMessage rt (withHyperlocalContext (withSettlingOrder svc order)
                                                  locality) props w
            = s)).
Proof.
  intros currentMessage s moodPromise locationPromise.
  subst currentMessage s moodPromise locationPromise. conjuncts.
  - intros Hinput Hidle Hstore Hinit. apply truthy_spec in Hinput.
    unfold_handlers. rewrite Hinput, Hidle. unfold_handlers.
    rewrite Hstore. unfold_handlers. rewrite Hinit. unfold_handlers.
    repeat oracle; conjuncts.
    all: try reflexivity.
    all: try (intros moodAnalysis locationContext Hm Hl; try congruence;
              injection Hm as <-; injection Hl as <-; reflexivity).
    all: intros e [[Hm [l Hl]] | [[Hl [m Hm]] | (e1 & e2 & Hm & Hl & ->)]];
      try congruence.
    all: repeat match goal with
                | H : Throws _ = Throws _ |- _ => injection H as <-
                end.
    all: (split; [reflexivity | listed]).
  - intros Hc. conjuncts.
    + intros input. unfold_handlers. rewrite Hc. unfold_handlers.
      repeat oracle; intros H; find_event H.
    + intros input ctx. unfold_handlers. rewrite Hc. unfold_handlers.
      repeat oracle; intros H; find_event H.
      all: injection H as <- <-; split; reflexivity.
    + intros classifier order. unfold_handlers. rewrite Hc. reflexivity.
  - intros Hc. conjuncts.
    + intros city input. unfold_handlers. rewrite Hc. unfold_handlers.
      repeat oracle; intros H; find_event H.
    + intros input ctx. unfold_handlers. rewrite Hc. unfold_handlers.
      repeat oracle; intros H; find_event H.
      all: injection H as <- <-; reflexivity.
    + intros classifier order. unfold_handlers. rewrite Hc. reflexivity.
Qed.

(** *** The message list *)

Ltac count_stored :=
  unfold stored; cbn [omap list_omap];
  repeat match goal with
         | H : kvFault _ _ = _ |- _ => rewrite H
         end;
  cbn [omap list_omap].

Lemma run_appends (rt : Runtime) (svc : AIService)
    (props : ChatInterfaceProps) (h : Handler) (w : World) :
  let s := run rt svc props h w in
  messagesOf (kvKey rt props) (after s)
  = messagesOf (kvKey rt props) w ++ stored rt (emitted s).
Proof.
  intros s. subst s.
  destruct h as [| |[|file files]|file|]; unfold_handlers; repeat oracle.
  all: read_store; count_stored; rewrite ?app_nil_r; reflexivity.
Qed.

Lemma run_frame (rt : Runtime) (svc : AIService)
    (props : ChatInterfaceProps) (h : Handler) (w : World) (other : string) :
  other <> kvKey rt props ->
  kv (after (run rt svc props h w)) !! other = kv w !! other.
Proof.
  intros Hne.
  destruct h as [| |[|file files]|file|]; unfold_handlers; repeat oracle.
  all: rewrite ?storeAppend_lookup_ne by assumption; reflexivity.
Qed.

Lemma setMessages_accepted (rt : Runtime) (props : ChatInterfaceProps)
    (site : Site) (m : Message) (w : World) :
  kvFault rt site = None ->
  setMessages rt props site m w
  = {| outcome := Returns tt;
       after := {| message := message w; isTyping := isTyping w;
                   isSending := isSending w;
                   kv := storeAppend (kvKey rt props) (kv w) m;
                   timers := timers w; readings := readings w |};
       emitted := [SetMessages site m] |}.
Proof. intros H. unfold_handlers. rewrite H. reflexivity. Qed.

Lemma setMessages_rejected (rt : Runtime) (props : ChatInterfaceProps)
    (site : Site) (m : Message) (w : World) (e : Thrown) :
  kvFault rt site = Some e ->
  setMessages rt props site m w
  = {| outcome := Throws e; after := w; emitted := [SetMessages site m] |}.
Proof. intros H. unfold_handlers. rewrite H. reflexivity. Qed.

Lemma appendAll_reads_back (rt : Runtime) (props : ChatInterfaceProps)
    (appends : list (Site * Message)) :
  Forall (fun a => kvFault rt (fst a) = None) appends ->
  forall w,
    outcome (appendAll rt props appends w) = Returns tt
    /\ emitted (appendAll rt props appends w)
       = map (fun a => SetMessages (fst a) (snd a)) appends
    /\ messagesOf (kvKey rt props) (after (appendAll rt props appends w))
       = messagesOf (kvKey rt props) w ++ map snd appends
    /\ (forall other,
          other <> kvKey rt props ->
          kv (after (appendAll rt props appends w)) !! other = kv w !! other).
Proof.
  induction 1 as [|[site m] later Hsite _ IH]; intros w.
  - cbn. rewrite app_nil_r. auto.
  - cbn [fst] in Hsite. cbn [appendAll]. cbv [mbind Eff_bind].
    rewrite (setMessages_accepted rt props site m w Hsite).
    match goal with
    | |- context [appendAll rt props later ?w1] =>
        destruct (IH w1) as (Ho & He & Hm & Hf);
        destruct (appendAll rt props later w1) as [o w2 es]
    end.
    cbn [outcome after emitted] in *. subst o es. conjuncts.
    + reflexivity.
    + reflexivity.
    + rewrite Hm. read_store. reflexivity.
    + intros other Hne. rewrite (Hf other Hne). cbn [kv].
      apply storeAppend_lookup_ne. assumption.
Qed.

Lemma sendMessage_keeps_and_echoes (rt : Runtime) (svc : AIService)
    (props : ChatInterfaceProps) (w : World) :
  trim (message w) <> EmptyString ->
  isSending w = false ->
  kvFault rt UserAppend = None ->
  exists later,
    messagesOf (kvKey rt props) (after (sendMessage rt svc props w))
    = messagesOf (kvKey rt props) w
      ++ userMessageOf rt (clock rt (readings w)) (clock rt (S (readings w)))
                       (message w)
         :: later.
Proof.
  intros Hinput Hidle Hstore. apply truthy_spec in Hinput.
  unfold_handlers. rewrite Hinput, Hidle. unfold_handlers.
  rewrite Hstore. unfold_handlers.
  repeat oracle; eexists; read_store; reflexivity.
Qed.

(** C7.  Appending any sequence of messages to a chat through the store
    adapter, one [setMessages] call after the other, and reading the chat
    gives what the chat held before followed by exactly those messages, in
    the order of the appends and as they were handed over, duplicates
    included; from an empty chat it gives exactly those messages.  Other
    chats are not touched.  A write the store rejects leaves the store as
    it was.  Every handler of the component leaves the message list it
    found as a prefix of the one it leaves, lengthened by the messages
    whose append the store took, in the order of the calls; a send that
    passes the guard puts the user message right behind the old list. *)
Theorem messages_append_only (rt : Runtime) (svc : AIService)
    (props : ChatInterfaceProps) :
  (forall appends w,
      Forall (fun a => kvFault rt (fst a) = None) appends ->
      let s := appendAll rt props appends w in
      outcome s = Returns tt
      /\ emitted s = map (fun a => SetMessages (fst a) (snd a)) appends
      /\ messagesOf (kvKey rt props) (after s)
         = messagesOf (kvKey rt props) w ++ map snd appends
      /\ (messagesOf (kvKey rt props) w = [] ->
          messagesOf (kvKey rt props) (after s) = map snd appends)
      /\ (forall other,
            other <> kvKey rt props -> kv (after s) !! other = kv w !! other))
  /\ (forall site m w e,
        kvFault rt site = Some e ->
        setMessages rt props site m w
        = {| outcome := Throws e; after := w; emitted := [SetMessages site m] |})
  /\ (forall h w,
        messagesOf (kvKey rt props) (after (run rt svc props h w))
        = messagesOf (kvKey rt props) w
          ++ stored rt (emitted (run rt svc props h w)))
  /\ (forall h w other,
        other <> kvKey rt props ->
        kv (after (run rt svc props h w)) !! other = kv w !! other)
  /\ (forall w,
        trim (message w) <> EmptyString ->
        isSending w = false ->
        kvFault rt UserAppend = None ->
        exists later,
          messagesOf (kvKey rt props) (after (run rt svc props SendMessage w))
          = messagesOf (kvKey rt props) w
            ++ userMessageOf rt (clock rt (readings w))
                             (clock rt (S (readings w))) (message w)
               :: later).
Proof.
  conjuncts.
  - intros appends w Haccepted s. subst s.
    destruct (appendAll_reads_back rt props appends Haccepted w)
      as (Ho & He & Hm & Hf).
    conjuncts; try assumption.
    intros Hempty. rewrite Hm, Hempty. reflexivity.
  - intros. apply setMessages_rejected. assumption.
  - intros. apply run_appends.
  - intros. apply run_frame. assumption.
  - intros. cbn [run]. apply sendMessage_keeps_and_echoes; assumption.
Qed.

(** *** Image attachments *)

(** C8, as the code has it.  For an image of more than 10 MiB no timer is
    set and no bill response is handed to the store, whatever the store
    does; with no timer pending, letting time pass after the upload adds
    nothing to it, so no bill response is appended for this upload, now or
    later.  When the store takes the append of the image message, the
    message list of the chat grows by the image message of the user; when
    it also takes the append of the error message, exactly one error
    message of the assistant follows, with confidence 0 and a content that
    names the size limit; when it rejects that append, the chat holds the
    image message alone, the failure is logged and the one toast is the
    validation failure. *)
Theorem processImageUpload_oversize (rt : Runtime)
    (props : ChatInterfaceProps) (file : File.t) (w : World) :
  (10 * 1024 * 1024 < File.size file)%Z ->
  let s := processImageUpload rt props file w in
  let imageMessage :=
    imageMessageOf rt (clock rt (readings w)) (clock rt (S (readings w))) file in
  (outcome s = Returns tt
   /\ timers (after s) = timers w
   /\ (forall m, ~ In (SetMessages BillAppend m) (emitted s))
   /\ (timers w = [] ->
       uploadAndWait rt props file w
       = {| outcome := Returns tt; after := after s; emitted := emitted s |}))
  /\ (kvFault rt ImageAppend = None ->
      isTyping (after s) = false
      /\ sender imageMessage = user
      /\ type imageMessage = image
      /\ (kvFault rt ErrorAppend = None ->
          exists errorResponse data,
            messagesOf (kvKey rt props) (after s)
            = messagesOf (kvKey rt props) w ++ [imageMessage; errorResponse]
            /\ sender errorResponse = ai
            /\ metadata errorResponse = Some data
            /\ confidence data = Some 0%Q
            /\ content errorResponse
               = "❌ Error processing image: " +:+ sizeTooLarge)
      /\ (forall e,
            kvFault rt ErrorAppend = Some e ->
            messagesOf (kvKey rt props) (after s)
            = messagesOf (kvKey rt props) w ++ [imageMessage]
            /\ In (ConsoleError
                     [LogText (storageReport rt props ErrorAppend e)])
                  (emitted s)
            /\ toasts (emitted s) = [sizeTooLarge])).
Proof.
  intros Hsize s imageMessage. subst s imageMessage.
  apply Z.ltb_lt in Hsize. split.
  - cbv [uploadAndWait]. unfold_handlers.
    destruct (kvFault rt ImageAppend) eqn:Himage; unfold_handlers;
      rewrite ?Hsize; unfold_handlers;
      destruct (kvFault rt ErrorAppend) eqn:Herror; unfold_handlers.
    all: conjuncts; try reflexivity.
    all: try (intros m H; find_event H; fail).
    all: intros ->; rewrite ?app_nil_r; reflexivity.
  - intros Himage. unfold_handlers. rewrite Himage. unfold_handlers.
    rewrite Hsize. unfold_handlers.
    destruct (kvFault rt ErrorAppend) eqn:Herror; unfold_handlers.
    all: conjuncts; try reflexivity; try discriminate.
    + intros e [= <-]. conjuncts.
      * read_store. reflexivity.
      * unfold storageReport. cbn [operation reportedKey]. listed.
      * reflexivity.
    + intros _. do 2 eexists. split; [read_store; reflexivity|].
      cbn. repeat split.
Qed.

(** *** Errors *)

Lemma run_reports_rejected_write (rt : Runtime) (svc : AIService)
    (props : ChatInterfaceProps) (h : Handler) (w : World)
    (site : Site) (m : Message) (e : Thrown) :
  In (SetMessages site m) (emitted (run rt svc props h w)) ->
  kvFault rt site = Some e ->
  site <> ErrorAppend ->
  In (ToastError (storageReport rt props site e))
     (emitted (run rt svc props h w)).
Proof.
  intros Hcall Hfault Hsite. revert Hcall.
  destruct h as [| |[|file files]|file|]; unfold_handlers; repeat oracle.
  all: intros Hcall; find_event Hcall.
  all: injection Hcall as <- <-; try congruence.
  all: unfold storageReport; cbn [operation reportedKey].
  all: match goal with
       | H : kvFault _ _ = Some ?e' |- _ =>
           replace e with e' by congruence
       end.
  all: listed.
Qed.

Lemma run_logs_rejected_error_message (rt : Runtime) (svc : AIService)
    (props : ChatInterfaceProps) (h : Handler) (w : World)
    (m : Message) (e : Thrown) :
  In (SetMessages ErrorAppend m) (emitted (run rt svc props h w)) ->
  kvFault rt ErrorAppend = Some e ->
  In (ConsoleError [LogText (storageReport rt props ErrorAppend e)])
     (emitted (run rt svc props h w))
  /\ (toasts (emitted (run rt svc props h w)) = [sizeTooLarge]
      \/ toasts (emitted (run rt svc props h w)) = [invalidFileType]).
Proof.
  intros Hcall Hfault. revert Hcall.
  destruct h as [| |[|file files]|file|]; unfold_handlers; repeat oracle.
  all: intros Hcall; find_event Hcall.
  all: try congruence.
  all: unfold storageReport; cbn [operation reportedKey].
  all: match goal with
       | H : kvFault _ _ = Some ?e' |- _ =>
           replace e with e' by congruence
       end.
  all: split; [listed | cbn; tauto].
Qed.

Lemma sendMessage_reports_failed_call (rt : Runtime) (svc : AIService)
    (props : ChatInterfaceProps) (w : World) (e : Thrown) :
  failedCall svc (emitted (sendMessage rt svc props w)) e ->
  In (ToastError "Failed to get AI response. Using fallback response.")
     (emitted (sendMessage rt svc props w)).
Proof.
  unfold failedCall. unfold_handlers. repeat oracle.
  all: intros [[H F] | [(i & H & F) | [(c & i & H & F) | (i & c & H & F)]]].
  all: find_event H.
  all: try (injection H as <-); try (injection H as <- <-); try congruence.
  all: listed.
Qed.

Lemma initializeAI_only_logs (svc : AIService) (w : World) (e : Thrown) :
  initializeConfig svc = Throws e ->
  initializeAI svc w
  = {| outcome := Returns tt;
       after := w;
       emitted := [InitializeConfig;
                   ConsoleError [LogText "Failed to initialize AI service:";
                                 LogThrown e]] |}.
Proof. intros H. unfold_handlers. rewrite H. reflexivity. Qed.

Lemma processImageUpload_reports_validation (rt : Runtime)
    (props : ChatInterfaceProps) (file : File.t) (w : World) :
  kvFault rt ImageAppend = None ->
  let s := processImageUpload rt props file w in
  ((10 * 1024 * 1024 < File.size file)%Z -> In (ToastError sizeTooLarge) (emitted s))
  /\ ((File.size file <= 10 * 1024 * 1024)%Z ->
      String.prefix "image/" (File.type file) = false ->
      In (ToastError invalidFileType) (emitted s)).
Proof.
  intros Himage s. subst s. split.
  - intros Hsize. apply Z.ltb_lt in Hsize.
    unfold_handlers. rewrite Himage. unfold_handlers.
    rewrite Hsize. unfold_handlers. repeat oracle; listed.
  - intros Hsize Htype. apply Z.ltb_ge in Hsize.
    unfold_handlers. rewrite Himage. unfold_handlers.
    rewrite Hsize, Htype. unfold_handlers. repeat oracle; listed.
Qed.

(** C9, as the code has it.  A rejected append of the error message of an
    image upload is only logged: it goes to the console, and the one toast
    of that run is the validation failure.  A rejected append at any other
    site, that of the fallback message of a send included, is shown in a
    toast carrying the storage error.  A failed call of the AI service
    during a send is shown in a toast, a failed validation of an image is
    shown in a toast, and a failed initialisation of the AI service when
    the component mounts is only logged. *)
Theorem errors_reported (rt : Runtime) (svc : AIService)
    (props : ChatInterfaceProps) (h : Handler) (w : World) :
  let s := run rt svc props h w in
  (forall m e,
      In (SetMessages ErrorAppend m) (emitted s) ->
      kvFault rt ErrorAppend = Some e ->
      In (ConsoleError [LogText (storageReport rt props ErrorAppend e)])
         (emitted s)
      /\ (toasts (emitted s) = [sizeTooLarge]
          \/ toasts (emitted s) = [invalidFileType]))
  /\ (forall site m e,
        In (SetMessages site m) (emitted s) ->
        kvFault rt site = Some e ->
        site <> ErrorAppend ->
        In (ToastError (storageReport rt props site e)) (emitted s))
  /\ (forall e,
        h = SendMessage ->
        failedCall svc (emitted s) e ->
        In (ToastError "Failed to get AI response. Using fallback response.")
           (emitted s))
  /\ (forall file,
        h = ProcessImageUpload file ->
        kvFault rt ImageAppend = None ->
        ((10 * 1024 * 1024 < File.size file)%Z ->
         In (ToastError sizeTooLarge) (emitted s))
        /\ ((File.size file <= 10 * 1024 * 1024)%Z ->
            String.prefix "image/" (File.type file) = false ->
            In (ToastError invalidFileType) (emitted s)))
  /\ (forall e,
        h = InitializeAI ->
        initializeConfig svc = Throws e ->
        emitted s
        = [InitializeConfig;
           ConsoleError [LogText "Failed to initialize AI service:";
                         LogThrown e]]).
Proof.
  intros s. subst s. conjuncts.
  - intros m e. apply run_logs_rejected_error_message.
  - intros site m e. apply run_reports_rejected_write.
  - intros e ->. apply sendMessage_reports_failed_call.
  - intros file -> Himage.
    apply (processImageUpload_reports_validation rt props file w Himage).
  - intros e -> Hinit. cbn [run].
    rewrite (initializeAI_only_logs svc w e Hinit). reflexivity.
Qed.

(** *** Sample runs *)

Import Sample.

Lemma sendMessage_guard_witness :
  sendMessage (runtime noFault) serviceUp noConsent (sending "hello")
  = {| outcome := Returns tt; after := sending "hello"; emitted := [] |}
  /\ sendMessage (runtime noFault) serviceUp noConsent (typed "   ")
     = {| outcome := Returns tt; after := typed "   "; emitted := [] |}.
Proof.
  split.
  - apply (sendMessage_guard (runtime noFault) serviceUp noConsent
                             (sending "hello")).
    right. reflexivity.
  - apply (sendMessage_guard (runtime noFault) serviceUp noConsent
                             (typed "   ")).
    left. reflexivity.
Defined.

Lemma sendMessage_user_append_fails_witness :
  let s := sendMessage (runtime (faultAt UserAppend)) serviceUp noConsent
                       (typed "hello") in
  toasts (emitted s) = ["Storage error: failed to add user message"]
  /\ kv (after s) = ∅
  /\ isSending (after s) = false.
Proof.
  destruct (sendMessage_user_append_fails
              (runtime (faultAt UserAppend)) serviceUp noConsent
              (typed "hello") quotaExceeded)
    as (_ & Hevents & Hkv & Hsending & _);
    [discriminate | reflexivity | reflexivity |].
  cbv zeta. rewrite Hevents, Hkv, Hsending. repeat split.
Defined.

Lemma sendMessage_fallback_appended_witness :
  exists userMessage fallbackMessage,
    messagesOf (kvKey (runtime noFault) noConsent)
      (after (sendMessage (runtime noFault) serviceDown noConsent
                          (typed "which route is best?")))
    = [userMessage; fallbackMessage]
    /\ content fallbackMessage = troubleshooting +:+ routeSuggestion.
Proof.
  destruct (sendMessage_fallback_appended
              (runtime noFault) serviceDown noConsent
              (typed "which route is best?")
              (plainRequest "which route is best?") offline)
    as (um & fm & data & notice & Hlist & _ & _ & _ & _ & _ & _ & _ & Hc);
    [vm_compute; tauto | reflexivity | reflexivity |].
  exists um, fm. split; [exact Hlist | exact Hc].
Defined.

Lemma sendMessage_reply_appended_witness :
  exists userMessage aiMessage data,
    messagesOf (kvKey (runtime noFault) moodConsent)
      (after (sendMessage (runtime noFault) serviceUp moodConsent
                          (typed "hello")))
    = [userMessage; aiMessage]
    /\ metadata aiMessage = Some data
    /\ confidence data = Some (3 # 4).
Proof.
  destruct (sendMessage_reply_appended
              (runtime noFault) serviceUp moodConsent (typed "hello")
              (moodRequest "hello") "You said: hello")
    as (um & am & data & Hlist & _ & _ & _ & _ & Hm & Hc & _);
    [vm_compute; tauto | reflexivity | reflexivity |].
  exists um, am, data. repeat split; assumption.
Defined.

Lemma processImageUpload_oversize_witness :
  (exists errorResponse,
      messagesOf (kvKey (runtime noFault) noConsent)
        (after (processImageUpload (runtime noFault) noConsent largePhoto
                                   (typed EmptyString)))
      = [imageMessageOf (runtime noFault) 1700000000000 1700000000001 largePhoto;
         errorResponse]
      /\ sender errorResponse = ai)
  /\ (let s := processImageUpload (runtime (faultAt ErrorAppend)) noConsent
                                  largePhoto (typed EmptyString) in
      messagesOf (kvKey (runtime (faultAt ErrorAppend)) noConsent) (after s)
      = [imageMessageOf (runtime (faultAt ErrorAppend))
                        1700000000000 1700000000001 largePhoto]
      /\ timers (after s) = []
      /\ toasts (emitted s) = [sizeTooLarge]).
Proof.
  split.
  - destruct (processImageUpload_oversize
                (runtime noFault) noConsent largePhoto (typed EmptyString)
                eq_refl)
      as (_ & Hstored).
    destruct (Hstored eq_refl) as (_ & _ & _ & Htaken & _).
    destruct (Htaken eq_refl) as (er & data & Hlist & Hs & _).
    exists er. split; [exact Hlist | exact Hs].
  - destruct (processImageUpload_oversize
                (runtime (faultAt ErrorAppend)) noConsent largePhoto
                (typed EmptyString) eq_refl)
      as ((_ & Htimers & _) & Hstored).
    destruct (Hstored eq_refl) as (_ & _ & _ & _ & Hrejected).
    destruct (Hrejected quotaExceeded eq_refl) as (Hlist & _ & Htoasts).
    cbv zeta. conjuncts; [exact Hlist | exact Htimers | exact Htoasts].
Defined.

Lemma errors_reported_witness :
  In (ToastError "Storage error: failed to add fallback message")
     (emitted (run (runtime (faultAt FallbackAppend)) serviceDown noConsent
                   SendMessage (typed "hello"))).
Proof.
  apply (proj1 (proj2 (errors_reported
                         (runtime (faultAt FallbackAppend)) serviceDown
                         noConsent SendMessage (typed "hello")))
               FallbackAppend
               (fallbackMessageOf (runtime (faultAt FallbackAppend))
                                  1700000000002 1700000000003 "hello")
               quotaExceeded).
  - vm_compute. tauto.
  - reflexivity.
  - discriminate.
Defined.

Lemma enrichment_gated_by_consent_witness :
  (let s := sendMessage (runtime noFault) serviceUp fullConsent
                        (typed "hello") in
   enrichmentCalls (emitted s)
   = [DetectMood "hello"; GetHyperlocalContext "Bangalore" "hello"]
   /\ generationCalls (emitted s) = [("hello", fullRequest "hello")])
  /\ (let s := sendMessage (runtime noFault) serviceUp moodConsent
                           (typed "hello") in
      enrichmentCalls (emitted s) = [DetectMood "hello"]
      /\ generationCalls (emitted s) = [("hello", moodRequest "hello")])
  /\ (let s := sendMessage (runtime noFault) (enrichmentDown false) fullConsent
                           (typed "hello") in
      generationCalls (emitted s) = []
      /\ In (ConsoleError [LogText "AI response error:"; LogThrown timedOut])
            (emitted s))
  /\ sendMessage (runtime noFault)
                 (withDetectMood (withSettlingOrder serviceUp (fun _ => false))
                                 (fun _ => Throws offline))
                 noConsent (typed "hello")
     = sendMessage (runtime noFault) serviceUp noConsent (typed "hello").
Proof.
  assert (Hinput : forall input, input = "hello" -> input <> EmptyString)
    by (intros input ->; discriminate).
  cbv zeta. split; [|split; [|split]].
  - destruct (enrichment_gated_by_consent
                (runtime noFault) serviceUp fullConsent (typed "hello"))
      as (Hreached & _).
    destruct (Hreached (Hinput _ eq_refl) eq_refl eq_refl eq_refl)
      as (Hcalls & Hrequest & _).
    split; [exact Hcalls|].
    exact (Hrequest happy indiranagar eq_refl eq_refl).
  - destruct (enrichment_gated_by_consent
                (runtime noFault) serviceUp moodConsent (typed "hello"))
      as (Hreached & _).
    destruct (Hreached (Hinput _ eq_refl) eq_refl eq_refl eq_refl)
      as (Hcalls & Hrequest & _).
    split; [exact Hcalls|].
    exact (Hrequest happy emptyLocation eq_refl eq_refl).
  - destruct (enrichment_gated_by_consent
                (runtime noFault) (enrichmentDown false) fullConsent
                (typed "hello"))
      as (Hreached & _).
    destruct (Hreached (Hinput _ eq_refl) eq_refl eq_refl eq_refl)
      as (_ & _ & Hfailed).
    exact (Hfailed timedOut
             (or_intror
                (or_intror
                   (ex_intro _ offline
                      (ex_intro _ timedOut
                         (conj eq_refl (conj eq_refl eq_refl))))))).
  - destruct (enrichment_gated_by_consent
                (runtime noFault) serviceUp noConsent (typed "hello"))
      as (_ & Hmood & _).
    destruct (Hmood eq_refl) as (_ & _ & Hsame).
    exact (Hsame (fun _ => Throws offline) (fun _ => false)).
Defined.

Lemma messages_append_only_witness :
  (let m1 := userMessageOf (runtime noFault) 1 2 "hello" in
   let m2 := fallbackMessageOf (runtime noFault) 3 4 "hello" in
   messagesOf (kvKey (runtime noFault) noConsent)
     (after (appendAll (runtime noFault) noConsent
                       [(UserAppend, m1); (FallbackAppend, m2); (UserAppend, m1)]
                       (resumed EmptyString)))
   = [earlier; m1; m2; m1])
  /\ map content
         (messagesOf (kvKey (runtime noFault) noConsent)
            (after (run (runtime noFault) serviceUp noConsent SendMessage
                        (resumed "hello"))))
     = ["good morning"; "hello"; "You said: hello"].
Proof.
  split.
  - cbv zeta.
    destruct (messages_append_only (runtime noFault) serviceUp noConsent)
      as (Happends & _).
    destruct (Happends
                [(UserAppend, userMessageOf (runtime noFault) 1 2 "hello");
                 (FallbackAppend, fallbackMessageOf (runtime noFault) 3 4 "hello");
                 (UserAppend, userMessageOf (runtime noFault) 1 2 "hello")]
                (resumed EmptyString))
      as (_ & _ & Hread & _).
    + repeat constructor.
    + exact Hread.
  - destruct (messages_append_only (runtime noFault) serviceUp noConsent)
      as (_ & _ & Hrun & _).
    rewrite (Hrun SendMessage (resumed "hello")). reflexivity.
Defined.

(** *** Where the specification and the code part *)

(** C1 as stated fails.  In [ChatInterface] the generation call throws and
    the store rejects the fallback message: the chat holds the user
    message alone.  In [MessagingApp] the generation call throws: the only
    message handed to the store is that of the user. *)
Lemma fallback_not_always_appended :
  (let s := sendMessage (runtime (faultAt FallbackAppend)) serviceDown
                        noConsent (typed "which route is best?") in
   In (GenerateResponse "which route is best?"
                        (plainRequest "which route is best?")) (emitted s)
   /\ generateResponse serviceDown "which route is best?"
                        (plainRequest "which route is best?")
      = Throws offline
   /\ map sender (messagesOf (kvKey (runtime (faultAt FallbackAppend)) noConsent)
                             (after s))
      = [user])
  /\ (let s := MessagingApp.handleSendMessage unreachable (appStore configured)
                                              (composing "hello") in
      emitted s
      = [MessagingApp.AddMessage
           {| MessagingApp.newContent := "hello";
              MessagingApp.newSender := MessagingApp.user;
              MessagingApp.newChatId := "chat-1";
              MessagingApp.newMetadata := None |};
         MessagingApp.GetAIService configured;
         MessagingApp.GenerateResponse "hello" []
           {| MessagingApp.optMood := None; MessagingApp.isGroup := false |};
         MessagingApp.ConsoleError
           [MessagingApp.LogText "AI Error:"; MessagingApp.LogThrown offline];
         MessagingApp.ToastError "Failed to generate AI response"]).
Proof.
  split.
  - cbv zeta. split; [vm_compute; tauto|]. split; reflexivity.
  - reflexivity.
Qed.

(** C5 as stated fails.  The generation call returns and the store rejects
    the reply: the chat holds the user message alone. *)
Lemma reply_not_always_appended :
  let s := sendMessage (runtime (faultAt AiAppend)) serviceUp noConsent
                       (typed "hello") in
  In (GenerateResponse "hello" (plainRequest "hello")) (emitted s)
  /\ generateResponse serviceUp "hello" (plainRequest "hello")
     = Returns "You said: hello"
  /\ map sender (messagesOf (kvKey (runtime (faultAt AiAppend)) noConsent)
                            (after s))
     = [user].
Proof. cbv zeta. split; [vm_compute; tauto|]. split; reflexivity. Qed.

(** C8 as stated fails.  The image is over 10 MiB, the image message is
    appended and the store rejects the error message: the chat holds the
    image message alone. *)
Lemma error_message_not_always_appended :
  let s := processImageUpload (runtime (faultAt ErrorAppend)) noConsent
                              largePhoto (typed EmptyString) in
  (10 * 1024 * 1024 < File.size largePhoto)%Z
  /\ map (fun m => (sender m, type m))
         (messagesOf (kvKey (runtime (faultAt ErrorAppend)) noConsent) (after s))
     = [(user, image)].
Proof. cbv zeta. split; reflexivity. Qed.

(** C9 as stated fails.  The generation call throws and the store rejects
    the fallback message: the storage error is shown in a toast, and the
    console has no entry for it.  The initialisation of the AI service
    fails when the component mounts: the error is logged and no toast is
    shown. *)
Lemma secondary_failure_is_toasted :
  (let s := sendMessage (runtime (faultAt FallbackAppend)) serviceDown
                        noConsent (typed "hello") in
   toasts (emitted s)
   = ["Storage error: failed to add fallback message";
      "Failed to get AI response. Using fallback response."]
   /\ consoleErrors (emitted s)
      = [[LogText "AI response error:"; LogThrown offline]])
  /\ emitted (initializeAI serviceUnconfigured (typed EmptyString))
     = [InitializeConfig;
        ConsoleError [LogText "Failed to initialize AI service:";
                      LogThrown (ErrorObject "No AI provider configured")]].
Proof. cbv zeta. split; [split|]; reflexivity. Qed.

(** *** Further properties of the handlers *)

Ltac unfold_surface :=
  cbv [handleKeyPress onChange uploadAndWait sendDisabled]; unfold_handlers.

(** As [oracle], for statements that read the flags of the final world:
    only the flag of the world the run starts from is a case to split. *)
Ltac consult :=
  match goal with
  | |- context [truthy ?x] => destruct (truthy x) eqn:?
  | |- context [isSending ?w] => is_var w; destruct (isSending w) eqn:?
  | |- context [kvFault ?rt ?s] => destruct (kvFault rt s) eqn:?
  | |- context [initializeConfig ?svc] =>
      destruct (initializeConfig svc) as [[]|?] eqn:?
  | |- context [consent ?p ?n] => destruct (consent p n) eqn:?
  | |- context [detectMood ?svc ?x] => destruct (detectMood svc x) eqn:?
  | |- context [getHyperlocalContext ?svc ?c ?x] =>
      destruct (getHyperlocalContext svc c x) eqn:?
  | |- context [generateResponse ?svc ?x ?c] =>
      destruct (generateResponse svc x c) eqn:?
  | |- context [onChatUpdate ?p] => destruct (onChatUpdate p) eqn:?
  | |- context [Z.ltb ?a ?b] => destruct (Z.ltb a b) eqn:?
  | |- context [String.prefix ?a ?b] => destruct (String.prefix a b) eqn:?
  | |- context [match timers ?w with _ => _ end] =>
      is_var w; destruct (timers w) as [|[[] ?] ?] eqn:?
  | |- context [moodSettlesFirst ?svc ?x] =>
      destruct (moodSettlesFirst svc x) eqn:?
  end; unfold_handlers.

(** A member of the emitted list, found with backtracking. *)
Ltac pick := cbn [In]; ((left; reflexivity) + (right; pick)).

(** The failed call of the path at hand. *)
Ltac failed_call :=
  unfold failedCall;
  solve [ left; split; [listed | eassumption]
        | right; left; eexists; split; [pick | eassumption]
        | right; right; left; do 2 eexists; split; [pick | eassumption]
        | right; right; right; do 2 eexists; split; [pick | eassumption] ].

(** X1.  No handler of the component lets an exception escape: whatever the
    store and the AI service do, every handler returns. *)
Theorem handlers_never_throw (rt : Runtime) (svc : AIService)
    (props : ChatInterfaceProps) (h : Handler) (w : World) :
  outcome (run rt svc props h w) = Returns tt.
Proof.
  destruct h as [| |[|file files]|file|]; unfold_handlers; repeat oracle;
    reflexivity.
Qed.

(** X2.  A send leaves [isSending] as it found it, cleared whenever the send
    ran, and never touches the timers.  Once the send has got past the echo
    of the user message, it ends with the typing indicator off and the input
    emptied; when it stops before, both are as they were. *)
Theorem sendMessage_settles (rt : Runtime) (svc : AIService)
    (props : ChatInterfaceProps) (w : World) :
  let s := sendMessage rt svc props w in
  isSending (after s) = isSending w
  /\ timers (after s) = timers w
  /\ (In InitializeConfig (emitted s) ->
      isSending (after s) = false
      /\ isTyping (after s) = false
      /\ message (after s) = EmptyString)
  /\ (~ In InitializeConfig (emitted s) ->
      isTyping (after s) = isTyping w /\ message (after s) = message w).
Proof.
  intros s. subst s. unfold_handlers. repeat consult; conjuncts;
    try reflexivity; try congruence.
  all: intros H; try (find_event H; fail);
    try (repeat split; reflexivity).
  all: exfalso; apply H; listed.
Qed.

(** X3.  For every input that does not trim to nothing, sent while no send
    is in flight, the first thing the handler does is to hand the user
    message to the store: its content is the trimmed input, it is of the
    user, of type text and without metadata, and every call of the AI
    service comes after it. *)
Theorem sendMessage_echoes_first (rt : Runtime) (svc : AIService)
    (props : ChatInterfaceProps) (w : World) :
  trim (message w) <> EmptyString ->
  isSending w = false ->
  exists userMessage later,
    emitted (sendMessage rt svc props w)
    = SetMessages UserAppend userMessage :: later
    /\ content userMessage = trim (message w)
    /\ sender userMessage = user
    /\ type userMessage = text
    /\ metadata userMessage = None.
Proof.
  intros Hinput Hidle. apply truthy_spec in Hinput.
  unfold_handlers. rewrite Hinput, Hidle. unfold_handlers.
  repeat oracle; do 2 eexists; (split; [reflexivity|]); repeat split.
Qed.

Lemma sendMessage_echoes_first_witness :
  exists userMessage later,
    emitted (sendMessage (runtime noFault) serviceUp noConsent
                         (typed "  hello  "))
    = SetMessages UserAppend userMessage :: later
    /\ content userMessage = "hello".
Proof.
  destruct (sendMessage_echoes_first (runtime noFault) serviceUp noConsent
                                     (typed "  hello  "))
    as (um & later & He & Hc & _); [discriminate | reflexivity |].
  exists um, later. split; [exact He | exact Hc].
Defined.

(** X4.  A send hands a fallback message to the store exactly when a call
    it made to the AI service failed, be it the initialisation, an
    enrichment call or the generation call; it hands a reply to the store
    exactly when its generation call returned. *)
Theorem sendMessage_fallback_iff_failed_call (rt : Runtime) (svc : AIService)
    (props : ChatInterfaceProps) (w : World) :
  let s := sendMessage rt svc props w in
  ((exists m, In (SetMessages FallbackAppend m) (emitted s))
   <-> exists e, failedCall svc (emitted s) e)
  /\ ((exists m, In (SetMessages AiAppend m) (emitted s))
      <-> exists input ctx reply,
            In (GenerateResponse input ctx) (emitted s)
            /\ generateResponse svc input ctx = Returns reply).
Proof.
  intros s. subst s. unfold_handlers.
  repeat oracle; (split; split).
  all: try (intros [m H]; find_event H; fail).
  all: try (intros [e [[H F] | [(i & H & F) | [(c & i & H & F)
                                              | (i & c & H & F)]]]];
            find_event H;
            try (injection H as <-); try (injection H as <- <-);
            congruence).
  all: try (intros (i & c & r & H & F); find_event H;
            injection H as <- <-; congruence).
  all: try (intros _; eexists; pick).
  all: try (intros _; eexists; failed_call).
  all: intros _; do 3 eexists; split; [pick | eassumption].
Qed.

Ltac observe :=
  cbn [generationCalls writes stored toasts omap list_omap length map].

(** X5.  A send makes at most one generation request: a failure is not
    retried.  Once past the echo of the user message it hands exactly one
    more message to the store, the reply or the fallback and never both;
    before that it hands over the user message at most. *)
Theorem sendMessage_single_attempt (rt : Runtime) (svc : AIService)
    (props : ChatInterfaceProps) (w : World) :
  let s := sendMessage rt svc props w in
  length (generationCalls (emitted s)) <= 1
  /\ (In InitializeConfig (emitted s) ->
      writes (emitted s) = [UserAppend; AiAppend]
      \/ writes (emitted s) = [UserAppend; FallbackAppend])
  /\ (~ In InitializeConfig (emitted s) ->
      writes (emitted s) = [] \/ writes (emitted s) = [UserAppend]).
Proof.
  intros s. subst s. unfold_handlers. repeat oracle; conjuncts.
  all: try (observe; lia).
  all: intros H; try (find_event H; fail); try (observe; tauto).
  all: exfalso; apply H; listed.
Qed.

(** X6.  The generation request of a send carries the trimmed input, as
    the text and as the specific request, the mention flag that tells
    whether the lowercased input contains the handle of the assistant, and
    as history the messages the chat held when the send began: the message
    being sent is not part of it. *)
Theorem sendMessage_request (rt : Runtime) (svc : AIService)
    (props : ChatInterfaceProps) (w : World) (input : string)
    (ctx : GenerationContext) :
  In (GenerateResponse input ctx) (emitted (sendMessage rt svc props w)) ->
  input = trim (message w)
  /\ specificRequest ctx = trim (message w)
  /\ isGroupMention ctx = includes (toLowerCase (trim (message w))) "@sahaay"
  /\ messageHistory ctx
     = map toAIServiceMessage (messagesOf (kvKey rt props) w).
Proof.
  unfold_handlers. repeat oracle; intros H; find_event H.
  all: injection H as <- <-; repeat split.
Qed.

Lemma sendMessage_request_witness :
  messageHistory (plainRequest "hello") = []
  /\ isGroupMention (plainRequest "hello") = false.
Proof.
  destruct (sendMessage_request (runtime noFault) serviceUp noConsent
                                (typed " hello ") "hello" (plainRequest "hello"))
    as (_ & _ & Hg & Hh); [vm_compute; tauto|].
  split; [exact Hh | exact Hg].
Defined.

(** X7.  The parent is told of a new last message only after a reply was
    stored: [onChatUpdate] is called only when the callback was given, the
    generation call returned and the store took the reply, with the id of
    the chat and the first hundred units of the reply; it is never called
    for a fallback message.  Conversely a stored reply is always
    reported when the callback was given. *)
Theorem onChatUpdate_after_stored_reply (rt : Runtime) (svc : AIService)
    (props : ChatInterfaceProps) (w : World) :
  let s := sendMessage rt svc props w in
  (forall chat preview,
      In (OnChatUpdate chat preview) (emitted s) ->
      onChatUpdate props = true
      /\ chat = chatId props
      /\ kvFault rt AiAppend = None
      /\ exists ctx reply,
           In (GenerateResponse (trim (message w)) ctx) (emitted s)
           /\ generateResponse svc (trim (message w)) ctx = Returns reply
           /\ preview = substring rt reply 0 100)
  /\ (forall m,
        In (SetMessages AiAppend m) (emitted s) ->
        kvFault rt AiAppend = None ->
        onChatUpdate props = true ->
        In (OnChatUpdate (chatId props) (substring rt (content m) 0 100))
           (emitted s)).
Proof.
  intros s. subst s. unfold_handlers. repeat oracle; split.
  all: try (intros chat preview H; find_event H; fail).
  all: try (intros m H Hs Hc; find_event H; congruence).
  all: try (intros chat preview H; find_event H; injection H as <- <-;
            conjuncts; try reflexivity;
            do 2 eexists; (split; [pick | split; [eassumption | reflexivity]])).
  all: intros m H Hs Hc; find_event H; injection H as <-; listed.
Qed.

Lemma onChatUpdate_after_stored_reply_witness :
  In (OnChatUpdate "chat-1" "You said: hello")
     (emitted (sendMessage (runtime noFault) serviceUp noConsent
                           (typed "hello"))).
Proof.
  apply (proj2 (onChatUpdate_after_stored_reply
                  (runtime noFault) serviceUp noConsent (typed "hello"))
               (aiMessageOf (runtime noFault) 1700000000002 1700000000003
                            "You said: hello" neutralMood)).
  - vm_compute. tauto.
  - reflexivity.
  - reflexivity.
Defined.

Lemma msgId_inj (a b : Z) : msgId a = msgId b -> a = b.
Proof.
  unfold msgId. intros H. injection H as H.
  apply (inj (pretty : Z -> string)). exact H.
Qed.

(** X8.  While the clock does not run backwards, the messages one run of a
    handler stores have different ids: the second one takes its id one
    millisecond after a later reading of the clock. *)
Theorem stored_ids_distinct (rt : Runtime) (svc : AIService)
    (props : ChatInterfaceProps) (h : Handler) (w : World) :
  (forall n, (clock rt n <= clock rt (S n))%Z) ->
  NoDup (map id (stored rt (emitted (run rt svc props h w)))).
Proof.
  intros Hclock.
  pose proof (Hclock (readings w)) as H0.
  pose proof (Hclock (S (readings w))) as H1.
  destruct h as [| |[|file files]|file|]; unfold_handlers; repeat oracle.
  all: count_stored;
    cbn [map id userMessageOf aiMessageOf fallbackMessageOf imageMessageOf
         errorResponseOf billResponseOf].
  all: repeat constructor; intros H;
    repeat (apply elem_of_cons in H; destruct H as [H | H];
            [apply msgId_inj in H; lia|]);
    apply elem_of_nil in H; exact H.
Qed.

Lemma stored_ids_distinct_witness :
  NoDup (map id (stored (runtime noFault)
                        (emitted (run (runtime noFault) serviceUp noConsent
                                      SendMessage (typed "hello"))))).
Proof.
  apply (stored_ids_distinct (runtime noFault) serviceUp noConsent
                             SendMessage (typed "hello")).
  intros n. cbn [clock runtime]. lia.
Defined.



Lemma sendMessage_returns (rt : Runtime) (svc : AIService)
    (props : ChatInterfaceProps) (w : World) :
  outcome (sendMessage rt svc props w) = Returns tt.
Proof. unfold_handlers. repeat oracle; reflexivity. Qed.

(** X10.  The send button is disabled exactly when a send would do
    nothing: with the button disabled [sendMessage] leaves the world as it
    is and calls nothing, with the button enabled it hands the user message
    to the store. *)
Theorem send_button_matches_guard (rt : Runtime) (svc : AIService)
    (props : ChatInterfaceProps) (w : World) :
  (sendDisabled w = true ->
   sendMessage rt svc props w
   = {| outcome := Returns tt; after := w; emitted := [] |})
  /\ (sendDisabled w = false ->
      exists userMessage later,
        emitted (sendMessage rt svc props w)
        = SetMessages UserAppend userMessage :: later).
Proof.
  unfold sendDisabled. split; intros H; unfold_handlers; rewrite H;
    unfold_handlers.
  - reflexivity.
  - repeat oracle; do 2 eexists; reflexivity.
Qed.

Lemma send_button_matches_guard_witness :
  sendDisabled (sending "hello") = true
  /\ emitted (sendMessage (runtime noFault) serviceUp noConsent
                          (sending "hello")) = [].
Proof.
  split; [reflexivity|].
  rewrite (proj1 (send_button_matches_guard (runtime noFault) serviceUp
                                            noConsent (sending "hello")));
    reflexivity.
Defined.

(** X11.  Of the keys pressed in the input, Enter without Shift runs a send
    and swallows the key; Escape empties the pending input and neither
    sends nor stores anything; every other key, Enter with Shift included,
    changes nothing. *)
Theorem handleKeyPress_keys (rt : Runtime) (svc : AIService)
    (props : ChatInterfaceProps) (e : KeyboardEvent.t) (w : World) :
  let s := handleKeyPress rt svc props e w in
  (KeyboardEvent.key e = "Enter" -> KeyboardEvent.shiftKey e = false ->
   outcome s = Returns true
   /\ after s = after (sendMessage rt svc props w)
   /\ emitted s = emitted (sendMessage rt svc props w))
  /\ (KeyboardEvent.key e = "Escape" ->
      outcome s = Returns false
      /\ emitted s = []
      /\ message (after s) = EmptyString
      /\ kv (after s) = kv w
      /\ isSending (after s) = isSending w
      /\ isTyping (after s) = isTyping w)
  /\ (KeyboardEvent.key e <> "Escape" ->
      KeyboardEvent.key e <> "Enter" \/ KeyboardEvent.shiftKey e = true ->
      s = {| outcome := Returns false; after := w; emitted := [] |}).
Proof.
  intros s. subst s.
  cbv [handleKeyPress mbind mret Eff_bind Eff_ret setMessage modify].
  conjuncts.
  - intros -> ->. cbn [negb andb].
    rewrite bool_decide_eq_true_2 by reflexivity.
    rewrite bool_decide_eq_false_2 by discriminate. cbn [andb].
    pose proof (sendMessage_returns rt svc props w) as Hr.
    destruct (sendMessage rt svc props w) as [o a ev]. cbn in Hr. subst o.
    cbn. rewrite !app_nil_r. repeat split.
  - intros ->. rewrite bool_decide_eq_false_2 by discriminate.
    rewrite bool_decide_eq_true_2 by reflexivity. cbn. repeat split.
  - intros Hescape Hother.
    rewrite (bool_decide_eq_false_2 _ Hescape).
    destruct Hother as [Henter | Hshift].
    + rewrite (bool_decide_eq_false_2 _ Henter). reflexivity.
    + rewrite Hshift, andb_false_r. reflexivity.
Qed.

Lemma handleKeyPress_keys_witness :
  message (after (handleKeyPress (runtime noFault) serviceUp noConsent
                                 escapeKey (typed "draft")))
  = EmptyString.
Proof.
  apply (proj1 (proj2 (handleKeyPress_keys (runtime noFault) serviceUp
                                           noConsent escapeKey (typed "draft")))).
  reflexivity.
Defined.

Lemma sendMessage_exchange (rt : Runtime) (svc : AIService)
    (props : ChatInterfaceProps) (w : World) :
  kvFault rt UserAppend = None ->
  kvFault rt AiAppend = None ->
  kvFault rt FallbackAppend = None ->
  trim (message w) <> EmptyString ->
  isSending w = false ->
  isSending (after (sendMessage rt svc props w)) = false
  /\ map sender (messagesOf (kvKey rt props) (after (sendMessage rt svc props w)))
     = map sender (messagesOf (kvKey rt props) w) ++ [user; ai].
Proof.
  intros Hu Ha Hf Hinput Hidle. apply truthy_spec in Hinput.
  unfold_handlers. rewrite Hinput, Hidle. unfold_handlers.
  rewrite Hu. unfold_handlers. rewrite ?Ha, ?Hf. unfold_handlers.
  repeat consult; (split; [reflexivity|]).
  all: read_store; rewrite List.map_app; reflexivity.
Qed.

(** X12.  While the store takes every write, a conversation alternates:
    after any number of inputs typed and sent one after the other, none of
    them blank, the chat has grown by one message of the user followed by
    one of the assistant per input, whatever the AI service did; no send is
    left in flight. *)
Theorem converse_alternates (rt : Runtime) (svc : AIService)
    (props : ChatInterfaceProps) (inputs : list string) :
  kvFault rt UserAppend = None ->
  kvFault rt AiAppend = None ->
  kvFault rt FallbackAppend = None ->
  Forall (fun input => trim input <> EmptyString) inputs ->
  forall w,
    isSending w = false ->
    outcome (converse rt svc props inputs w) = Returns tt
    /\ isSending (after (converse rt svc props inputs w)) = false
    /\ map sender (messagesOf (kvKey rt props)
                              (after (converse rt svc props inputs w)))
       = map sender (messagesOf (kvKey rt props) w)
         ++ exchanges (length inputs).
Proof.
  intros Hu Ha Hf Hinputs.
  induction Hinputs as [|input later Hinput _ IH]; intros w Hidle.
  - cbn. rewrite app_nil_r. auto.
  - cbn [converse].
    cbv [mbind Eff_bind onChange setMessage modify].
    set (w1 := {| message := input; isTyping := isTyping w;
                  isSending := isSending w; kv := kv w;
                  timers := timers w; readings := readings w |}).
    pose proof (sendMessage_returns rt svc props w1) as Hr.
    destruct (sendMessage_exchange rt svc props w1 Hu Ha Hf Hinput Hidle)
      as [Hidle' Hgrown].
    destruct (sendMessage rt svc props w1) as [o w2 es].
    cbn [outcome after] in Hr, Hidle', Hgrown. subst o.
    destruct (IH w2 Hidle') as (Ho & Hi & Hm).
    destruct (converse rt svc props later w2) as [o' w3 es'].
    cbn [outcome after] in *. subst o'.
    conjuncts; [reflexivity | assumption |].
    rewrite Hm, Hgrown. cbn [length]. unfold exchanges.
    cbn [replicate concat]. rewrite <- app_assoc. reflexivity.
Qed.

Lemma converse_alternates_witness :
  map sender
      (messagesOf (kvKey (runtime noFault) noConsent)
         (after (converse (runtime noFault) serviceDown noConsent
                          ["hello"; "which route?"] (typed EmptyString))))
  = [user; ai; user; ai].
Proof.
  apply (converse_alternates (runtime noFault) serviceDown noConsent
                             ["hello"; "which route?"]);
    try reflexivity.
  repeat constructor; discriminate.
Defined.

(** *** Further properties of the image handlers *)

(** X13.  A file selection is filtered before anything is stored: an empty
    selection and a first file that is not an image are ignored without a
    trace; for an image only the first file counts; and the only validation
    error a selection can end in is the size limit, the second check of the
    file type never failing after the first. *)
Theorem processFileUpload_filters (rt : Runtime) (props : ChatInterfaceProps)
    (files : list File.t) (w : World) :
  let s := processFileUpload rt props files w in
  (files = []
   \/ (exists file others,
          files = file :: others
          /\ String.prefix "image/" (File.type file) = false) ->
   s = {| outcome := Returns tt; after := w; emitted := [] |})
  /\ (forall file others,
        files = file :: others ->
        String.prefix "image/" (File.type file) = true ->
        s = processImageUpload rt props file w)
  /\ (forall m,
        In (SetMessages ErrorAppend m) (emitted s) ->
        content m = "❌ Error processing image: " +:+ sizeTooLarge
        /\ exists file others,
             files = file :: others
             /\ (10 * 1024 * 1024 < File.size file)%Z).
Proof.
  intros s. subst s. conjuncts.
  - intros [-> | (file & others & -> & Htype)]; cbn [processFileUpload].
    + reflexivity.
    + rewrite Htype. reflexivity.
  - intros file others -> Htype. cbn [processFileUpload]. rewrite Htype.
    reflexivity.
  - intros m. destruct files as [|file others]; unfold_handlers.
    + intros H. find_event H.
    + destruct (String.prefix "image/" (File.type file)) eqn:Htype;
        unfold_handlers; [|intros H; find_event H].
      repeat oracle; intros H; find_event H.
      all: injection H as <-.
      all: split; [reflexivity|].
      all: exists file, others; split; [reflexivity|].
      all: apply Z.ltb_lt; assumption.
Qed.

Lemma processFileUpload_filters_witness :
  processFileUpload (runtime noFault) noConsent [document; smallPhoto]
                    (typed EmptyString)
  = {| outcome := Returns tt; after := typed EmptyString; emitted := [] |}.
Proof.
  apply (proj1 (processFileUpload_filters (runtime noFault) noConsent
                                          [document; smallPhoto]
                                          (typed EmptyString))).
  right. exists document, [smallPhoto]. split; reflexivity.
Defined.

(** X14.  An image of at most 10 MiB whose image message the store takes is
    accepted: the one call made is the append of the image message, which
    names the file; the typing indicator is turned on; one timer of 2000
    milliseconds is set for the bill response, behind those already
    pending; and nothing is shown. *)
Theorem processImageUpload_accepts (rt : Runtime) (props : ChatInterfaceProps)
    (file : File.t) (w : World) :
  (File.size file <= 10 * 1024 * 1024)%Z ->
  String.prefix "image/" (File.type file) = true ->
  kvFault rt ImageAppend = None ->
  let s := processImageUpload rt props file w in
  let imageMessage :=
    imageMessageOf rt (clock rt (readings w)) (clock rt (S (readings w))) file in
  outcome s = Returns tt
  /\ emitted s = [SetMessages ImageAppend imageMessage]
  /\ content imageMessage = "📷 Image uploaded: " +:+ File.name file
  /\ messagesOf (kvKey rt props) (after s)
     = messagesOf (kvKey rt props) w ++ [imageMessage]
  /\ isTyping (after s) = true
  /\ timers (after s) = timers w ++ [(BillResponse, 2000%Z)].
Proof.
  intros Hsize Htype Himage s imageMessage. subst s imageMessage.
  apply Z.ltb_ge in Hsize.
  unfold_handlers. rewrite Himage. unfold_handlers.
  rewrite Hsize, Htype. unfold_handlers.
  conjuncts; try reflexivity. read_store. reflexivity.
Qed.

Lemma processImageUpload_accepts_witness :
  timers (after (processImageUpload (runtime noFault) noConsent smallPhoto
                                    (typed EmptyString)))
  = [(BillResponse, 2000%Z)].
Proof.
  apply (processImageUpload_accepts (runtime noFault) noConsent smallPhoto
                                    (typed EmptyString));
    [discriminate | reflexivity | reflexivity].
Defined.

(** X15.  When the store rejects the image message, the upload stops
    there: the storage error is shown in a toast, and neither the typing
    indicator, nor the timers, nor the store change; the file is not even
    validated, so no error message follows, whatever its size. *)
Theorem processImageUpload_append_fails (rt : Runtime)
    (props : ChatInterfaceProps) (file : File.t) (w : World) (e : Thrown) :
  kvFault rt ImageAppend = Some e ->
  let s := processImageUpload rt props file w in
  outcome s = Returns tt
  /\ emitted s
     = [SetMessages ImageAppend
          (imageMessageOf rt (clock rt (readings w)) (clock rt (S (readings w)))
                          file);
        ToastError (storageReport rt props ImageAppend e)]
  /\ kv (after s) = kv w
  /\ isTyping (after s) = isTyping w
  /\ timers (after s) = timers w.
Proof.
  intros Himage s. subst s.
  unfold_handlers. rewrite Himage. unfold_handlers. repeat split.
Qed.

Lemma processImageUpload_append_fails_witness :
  toasts (emitted (processImageUpload (runtime (faultAt ImageAppend)) noConsent
                                      largePhoto (typed EmptyString)))
  = ["Storage error: failed to add image message"].
Proof.
  destruct (processImageUpload_append_fails
              (runtime (faultAt ImageAppend)) noConsent largePhoto
              (typed EmptyString) quotaExceeded)
    as (_ & He & _); [reflexivity|].
  rewrite He. reflexivity.
Defined.

(** X16.  When its timer fires, the bill response is handed to the store
    and the typing indicator is turned off either way.  If the store takes
    it, the chat grows by exactly that message: of the assistant, of type
    text, with confidence 0.95 and the three action items, and nothing is
    shown; if the store rejects it, the chat is as before and the storage
    error is shown in a toast. *)
Theorem billResponseCallback_appends (rt : Runtime)
    (props : ChatInterfaceProps) (w : World) :
  let s := billResponseCallback rt props w in
  outcome s = Returns tt
  /\ isTyping (after s) = false
  /\ timers (after s) = timers w
  /\ match kvFault rt BillAppend with
     | None =>
         exists billResponse data,
           messagesOf (kvKey rt props) (after s)
           = messagesOf (kvKey rt props) w ++ [billResponse]
           /\ sender billResponse = ai
           /\ type billResponse = text
           /\ content billResponse = billContent
           /\ metadata billResponse = Some data
           /\ confidence data = Some (95 # 100)
           /\ actionItems data
              = Some ["Create UPI Payment Link"; "Set Reminder";
                      "View Bill Details"]
           /\ toasts (emitted s) = []
     | Some e =>
         messagesOf (kvKey rt props) (after s) = messagesOf (kvKey rt props) w
         /\ toasts (emitted s) = [storageReport rt props BillAppend e]
     end.
Proof.
  intros s. subst s. unfold_handlers.
  destruct (kvFault rt BillAppend) as [e|]; unfold_handlers; conjuncts;
    try reflexivity.
  do 2 eexists. split; [read_store; reflexivity|]. cbn. repeat split.
Qed.

(** X17.  An accepted image and its wait compose: with no other timer
    pending and a store that takes the writes, picking an image of at most
    10 MiB and letting the timer fire leaves the chat longer by the image
    message of the user and the bill response of the assistant, in that
    order, with the typing indicator off and no timer left. *)
Theorem uploadAndWait_bill (rt : Runtime) (props : ChatInterfaceProps)
    (file : File.t) (w : World) :
  (File.size file <= 10 * 1024 * 1024)%Z ->
  String.prefix "image/" (File.type file) = true ->
  kvFault rt ImageAppend = None ->
  kvFault rt BillAppend = None ->
  timers w = [] ->
  let s := uploadAndWait rt props file w in
  outcome s = Returns tt
  /\ messagesOf (kvKey rt props) (after s)
     = messagesOf (kvKey rt props) w
       ++ [imageMessageOf rt (clock rt (readings w))
                          (clock rt (S (readings w))) file;
           billResponseOf rt (clock rt (S (S (readings w))))
                          (clock rt (S (S (S (readings w)))))]
  /\ isTyping (after s) = false
  /\ timers (after s) = [].
Proof.
  intros Hsize Htype Himage Hbill Htimers s. subst s.
  apply Z.ltb_ge in Hsize.
  unfold_surface. rewrite Himage. unfold_handlers.
  rewrite Hsize, Htype. unfold_handlers. rewrite Htimers. unfold_handlers.
  rewrite Hbill. unfold_handlers.
  conjuncts; try reflexivity. read_store. reflexivity.
Qed.

Lemma uploadAndWait_bill_witness :
  map sender
      (messagesOf (kvKey (runtime noFault) noConsent)
         (after (uploadAndWait (runtime noFault) noConsent smallPhoto
                               (typed EmptyString))))
  = [user; ai].
Proof.
  destruct (uploadAndWait_bill (runtime noFault) noConsent smallPhoto
                               (typed EmptyString))
    as (_ & Hm & _);
    [discriminate | reflexivity | reflexivity | reflexivity | reflexivity |].
  rewrite Hm. reflexivity.
Defined.

End ChatInterfaceProofs.

(** ** The [MessagingApp] component *)

Module MessagingAppProofs.
Import MessagingApp.

Ltac unfold_handler :=
  cbv [handleSendMessage generate setMessageInput setIsGenerating
       mbind mret Eff_bind Eff_ret throw tryCatch tryFinally emit get modify
       call await outcome after emitted];
  cbn [messageInput isGenerating negb orb andb].



(** *** Further properties of [handleSendMessage] *)

Ltac observe_app := cbn [added toasts omap list_omap length app].

Ltac parts := repeat match goal with |- _ /\ _ => split end.

(** Case analysis on what the handler consults, in the order it does. *)
Ltac consult_app getAIService store w :=
  unfold_handler;
  destruct (currentChatId store) as [chat|] eqn:?; unfold_handler;
  [ destruct (truthy (trim (messageInput w))) eqn:?;
    destruct (truthy chat) eqn:?; unfold_handler;
    [ destruct (enabled (aiConfig (settings store))) eqn:?;
      destruct (present (apiKey (aiConfig (settings store)))) eqn:?;
      unfold_handler;
      [ destruct (getAIService (aiConfig (settings store)))
          as [service|] eqn:?;
        unfold_handler;
        [ match goal with
          | |- context [generateResponse service ?a ?b ?c] =>
              destruct (generateResponse service a b c) eqn:?
          end;
          unfold_handler
        | ]
      | .. ]
    | .. ]
  | ].

Lemma sliceLast_length {A : Type} (n : nat) (l : list A) :
  length (sliceLast n l) = min n (length l).
Proof. unfold sliceLast. rewrite length_drop. lia. Qed.

Lemma sliceLast_suffix {A : Type} (n : nat) (l : list A) :
  l = take (length l - n) l ++ sliceLast n l.
Proof. unfold sliceLast. symmetry. apply take_drop. Qed.

(** X18.  The guard of [handleSendMessage] looks at the input and at the
    selected chat only.  With an input that trims to nothing, or with no
    chat selected, the handler does nothing.  It does not look at
    [isGenerating]: started while a generation is in flight, it makes the
    same calls as it would otherwise. *)
Theorem handleSendMessage_guard {Metadata : Type}
    (getAIService : AIConfig -> Outcome (AIService Metadata))
    (store : AppStore) (w : World) :
  (trim (messageInput w) = EmptyString
   \/ currentChatId store = None
   \/ currentChatId store = Some EmptyString ->
   handleSendMessage getAIService store w
   = {| outcome := Returns tt; after := w; emitted := [] |})
  /\ (forall generating,
        emitted (handleSendMessage getAIService store
                   {| messageInput := messageInput w;
                      isGenerating := generating |})
        = emitted (handleSendMessage getAIService store w)).
Proof.
  split.
  - intros [H | [H | H]]; unfold_handler; rewrite H; try reflexivity.
    + destruct (currentChatId store); reflexivity.
    + cbn. rewrite orb_true_r. reflexivity.
  - intros generating. destruct w as [input flag]. cbn [messageInput].
    unfold_handler.
    destruct (currentChatId store) as [chat|]; [|reflexivity].
    destruct (truthy (trim input)), (truthy chat); unfold_handler;
      try reflexivity.
    destruct (enabled (aiConfig (settings store)));
      destruct (present (apiKey (aiConfig (settings store))));
      unfold_handler; reflexivity.
Qed.

Lemma handleSendMessage_guard_witness :
  handleSendMessage Sample.reachable (Sample.appStore Sample.configured)
                    (Sample.composing "   ")
  = {| outcome := Returns tt; after := Sample.composing "   ";
       emitted := [] |}.
Proof.
  apply (proj1 (handleSendMessage_guard
                  Sample.reachable (Sample.appStore Sample.configured)
                  (Sample.composing "   "))).
  left. reflexivity.
Defined.

(** X19.  With the AI configured, a service obtained and a generation call
    that returns, a send makes four calls in this order: the user message
    to the store, the request for the service, the generation call with the
    trimmed input, the history window and the options, and the reply to the
    store, from the assistant, in the same chat, with the content and the
    metadata of the response untouched.  It ends with the input emptied and
    [isGenerating] cleared, and shows nothing. *)
Theorem handleSendMessage_reply {Metadata : Type}
    (getAIService : AIConfig -> Outcome (AIService Metadata))
    (store : AppStore) (w : World) (chat key : string)
    (service : AIService Metadata) (response : Response Metadata) :
  trim (messageInput w) <> EmptyString ->
  currentChatId store = Some chat ->
  chat <> EmptyString ->
  enabled (aiConfig (settings store)) = true ->
  apiKey (aiConfig (settings store)) = Some key ->
  key <> EmptyString ->
  getAIService (aiConfig (settings store)) = Returns service ->
  generateResponse service (trim (messageInput w))
    (map toHistoryEntry (sliceLast 10 (currentMessages store)))
    (optionsOf store)
  = Returns response ->
  handleSendMessage getAIService store w
  = {| outcome := Returns tt;
       after := {| messageInput := EmptyString; isGenerating := false |};
       emitted :=
         [AddMessage {| newContent := trim (messageInput w);
                        newSender := user;
                        newChatId := chat;
                        newMetadata := None |};
          GetAIService (aiConfig (settings store));
          GenerateResponse (trim (messageInput w))
            (map toHistoryEntry (sliceLast 10 (currentMessages store)))
            (optionsOf store);
          AddMessage {| newContent := responseContent response;
                        newSender := ai;
                        newChatId := chat;
                        newMetadata := Some (responseMetadata response) |}] |}.
Proof.
  intros Hinput Hchat Hselected Henabled Hkey Hpresent Hservice Hresponse.
  apply truthy_spec in Hinput. apply truthy_spec in Hselected.
  apply truthy_spec in Hpresent.
  unfold_handler. rewrite Hchat, Hinput, Hselected. unfold_handler.
  rewrite Henabled, Hkey. cbn [present andb]. rewrite Hpresent.
  unfold_handler. rewrite Hservice. unfold_handler.
  unfold optionsOf in Hresponse. rewrite Hresponse. reflexivity.
Qed.

Lemma handleSendMessage_reply_witness :
  toasts (emitted (handleSendMessage Sample.reachable
                     (Sample.appStore Sample.configured)
                     (Sample.composing "hello")))
  = []
  /\ map newSender
         (added (emitted (handleSendMessage Sample.reachable
                            (Sample.appStore Sample.configured)
                            (Sample.composing "hello"))))
     = [user; ai].
Proof.
  rewrite (handleSendMessage_reply
             Sample.reachable (Sample.appStore Sample.configured)
             (Sample.composing "hello") "chat-1" "sk-test"
             {| generateResponse := fun input _ _ =>
                  Returns {| responseContent := "You said: " +:+ input;
                             responseMetadata := tt |} |}
             {| responseContent := "You said: hello";
                responseMetadata := tt |});
    try reflexivity; try discriminate.
  split; reflexivity.
Defined.

(** X20.  When the service cannot be obtained or the generation call throws,
    [handleSendMessage] stores no message besides that of the user: the
    error is logged, one toast says that the generation failed, the input
    is emptied, [isGenerating] is cleared, and the handler returns. *)
Theorem handleSendMessage_failure {Metadata : Type}
    (getAIService : AIConfig -> Outcome (AIService Metadata))
    (store : AppStore) (w : World) (chat key : string) (e : Thrown) :
  trim (messageInput w) <> EmptyString ->
  currentChatId store = Some chat ->
  chat <> EmptyString ->
  enabled (aiConfig (settings store)) = true ->
  apiKey (aiConfig (settings store)) = Some key ->
  key <> EmptyString ->
  getAIService (aiConfig (settings store)) = Throws e
  \/ (exists service,
         getAIService (aiConfig (settings store)) = Returns service
         /\ generateResponse service (trim (messageInput w))
              (map toHistoryEntry (sliceLast 10 (currentMessages store)))
              (optionsOf store)
            = Throws e) ->
  let s := handleSendMessage getAIService store w in
  outcome s = Returns tt
  /\ after s = {| messageInput := EmptyString; isGenerating := false |}
  /\ added (emitted s)
     = [{| newContent := trim (messageInput w);
           newSender := user;
           newChatId := chat;
           newMetadata := None |}]
  /\ toasts (emitted s) = ["Failed to generate AI response"]
  /\ In (ConsoleError [LogText "AI Error:"; LogThrown e]) (emitted s).
Proof.
  intros Hinput Hchat Hselected Henabled Hkey Hpresent Hfailure s. subst s.
  apply truthy_spec in Hinput. apply truthy_spec in Hselected.
  apply truthy_spec in Hpresent.
  unfold_handler. rewrite Hchat, Hinput, Hselected. unfold_handler.
  rewrite Henabled, Hkey. cbn [present andb]. rewrite Hpresent.
  unfold_handler.
  destruct Hfailure as [Hservice | (service & Hservice & Hthrows)];
    rewrite Hservice; unfold_handler.
  - repeat split; cbn; auto.
  - unfold optionsOf in Hthrows. rewrite Hthrows.
    repeat split; cbn; auto.
Qed.

Lemma handleSendMessage_failure_witness :
  toasts (emitted (handleSendMessage Sample.unreachable
                     (Sample.appStore Sample.configured)
                     (Sample.composing "hello")))
  = ["Failed to generate AI response"].
Proof.
  destruct (handleSendMessage_failure
              Sample.unreachable (Sample.appStore Sample.configured)
              (Sample.composing "hello") "chat-1" "sk-test" Sample.offline)
    as (_ & _ & _ & Ht & _);
    [ discriminate | reflexivity | discriminate | reflexivity | reflexivity
    | discriminate | right; eexists; split; reflexivity | exact Ht ].
Defined.

(** X21.  The conversation history of a generation call is a window: it
    holds the last ten messages of the selected chat as they were when the
    handler was created, fewer when the chat is shorter, in their order,
    each with the role of its sender and its content; the message being
    sent is not among them. *)
Theorem handleSendMessage_history {Metadata : Type}
    (getAIService : AIConfig -> Outcome (AIService Metadata))
    (store : AppStore) (w : World) (input : string)
    (history : list HistoryEntry) (options : Options) :
  In (GenerateResponse input history options)
     (emitted (handleSendMessage getAIService store w)) ->
  input = trim (messageInput w)
  /\ options = optionsOf store
  /\ length history = min 10 (length (currentMessages store))
  /\ exists older,
       map toHistoryEntry (currentMessages store) = older ++ history.
Proof.
  consult_app getAIService store w; intros H; cbn [In app] in H.
  all: repeat (destruct H as [H | H]; [try discriminate H|]);
    try contradiction.
  all: injection H as <- <- <-.
  all: parts; try reflexivity.
  all: try (rewrite length_map, sliceLast_length; reflexivity).
  all: exists (map toHistoryEntry
                 (take (length (currentMessages store) - 10)
                       (currentMessages store)));
    rewrite <- List.map_app, <- sliceLast_suffix; reflexivity.
Qed.

Lemma handleSendMessage_history_witness :
  let history :=
    map toHistoryEntry
        (sliceLast 10 (currentMessages (Sample.longChat Sample.configured))) in
  length (currentMessages (Sample.longChat Sample.configured)) = 12
  /\ length history = 10
  /\ map historyContent history
     = ["message 3"; "message 4"; "message 5"; "message 6"; "message 7";
        "message 8"; "message 9"; "message 10"; "message 11"; "message 12"]
  /\ exists older,
       map toHistoryEntry (currentMessages (Sample.longChat Sample.configured))
       = older ++ history.
Proof.
  cbv zeta.
  destruct (handleSendMessage_history
              Sample.reachable (Sample.longChat Sample.configured)
              (Sample.composing "hello") "hello"
              (map toHistoryEntry
                   (sliceLast 10
                      (currentMessages (Sample.longChat Sample.configured))))
              (optionsOf (Sample.longChat Sample.configured)))
    as (_ & _ & Hlength & Hwindow).
  - vm_compute. tauto.
  - split; [reflexivity|]. split; [exact Hlength|].
    split; [reflexivity | exact Hwindow].
Defined.

(** X22.  [handleSendMessage] never throws and never stores more than two
    messages, the first of them the message of the user.  Whenever it asked
    for the AI service it ends with [isGenerating] cleared; otherwise it
    leaves the flag as it was. *)
Theorem handleSendMessage_settles {Metadata : Type}
    (getAIService : AIConfig -> Outcome (AIService Metadata))
    (store : AppStore) (w : World) :
  let s := handleSendMessage getAIService store w in
  outcome s = Returns tt
  /\ length (added (emitted s)) <= 2
  /\ (forall m, head (added (emitted s)) = Some m -> newSender m = user)
  /\ ((exists config, In (GetAIService config) (emitted s)) ->
      isGenerating (after s) = false)
  /\ ((forall config, ~ In (GetAIService config) (emitted s)) ->
      isGenerating (after s) = isGenerating w).
Proof.
  intros s. subst s. parts.
  - consult_app getAIService store w; reflexivity.
  - consult_app getAIService store w; observe_app; lia.
  - consult_app getAIService store w; intros m H; cbn in H;
      first [discriminate H | injection H as <-; reflexivity].
  - consult_app getAIService store w; intros [config H];
      first [ reflexivity
            | exfalso; cbn [In app] in H;
              repeat (destruct H as [H | H]; [discriminate H|]); exact H ].
  - consult_app getAIService store w; intros H;
      first [reflexivity | exfalso; eapply H; cbn [In app]; eauto].
Qed.

End MessagingAppProofs.
